(** * Label Studio MCP server: the tool dispatch layer

    A shallow embedding of [label_studio_mcp/mcp_env.py] and
    [label_studio_mcp/mcp_server.py]: the connection context, the
    [require_ls_connection] guard and the ten tools it wraps.

    Python values are a first-order data type, SDK objects are records
    of attributes and duck-typed accessors, exceptions are values of an
    error type, and a tool is a computation in a small monad that logs
    every remote call and file access it performs. *)

From Stdlib Require Import ZArith String Ascii List Bool Lia DecimalString.
Import ListNotations.

#[local] Set Warnings "-register-all".
#[local] Open Scope string_scope.
#[local] Open Scope Z_scope.

(** ** Exceptions *)

(** The classes the source names in its [except] clauses or raises
    itself, their built-in bases, and [UserError] for any other direct
    subclass of [Exception] (SDK and transport errors).  Everything
    here is an instance of [Exception]. *)
Inductive exn_class : Type :=
| OSError
| FileNotFoundError
| PermissionError
| ValueError
| JSONDecodeError
| UnicodeDecodeError
| TypeError
| AttributeError
| UserError (name : string).

Record exn : Type := mkExn { exn_cls : exn_class; exn_msg : string }.

(** [type(e).__name__] *)
Definition class_name (c : exn_class) : string :=
  match c with
  | OSError => "OSError"
  | FileNotFoundError => "FileNotFoundError"
  | PermissionError => "PermissionError"
  | ValueError => "ValueError"
  | JSONDecodeError => "JSONDecodeError"
  | UnicodeDecodeError => "UnicodeDecodeError"
  | TypeError => "TypeError"
  | AttributeError => "AttributeError"
  | UserError name => name
  end.

(** The direct base class below [Exception], if any. *)
Definition base_class (c : exn_class) : option exn_class :=
  match c with
  | FileNotFoundError | PermissionError => Some OSError
  | JSONDecodeError | UnicodeDecodeError => Some ValueError
  | _ => None
  end.

Definition same_class (c d : exn_class) : bool :=
  match c, d with
  | OSError, OSError
  | FileNotFoundError, FileNotFoundError
  | PermissionError, PermissionError
  | ValueError, ValueError
  | JSONDecodeError, JSONDecodeError
  | UnicodeDecodeError, UnicodeDecodeError
  | TypeError, TypeError
  | AttributeError, AttributeError => true
  | UserError a, UserError b => String.eqb a b
  | _, _ => false
  end.

(** [isinstance(e, c)], as an [except c] clause tests it. *)
Definition isinstance_exn (e : exn) (c : exn_class) : bool :=
  same_class (exn_cls e) c
  || match base_class (exn_cls e) with
     | Some b => same_class b c
     | None => false
     end.

(** The result of running Python code: a value, or a raised exception. *)
Inductive outcome (A : Type) : Type :=
| Returned (a : A)
| Raised (e : exn).
Arguments Returned {A} a.
Arguments Raised {A} e.

(** ** Python values *)

(** Plain data.  A [str] is a Rocq string (code points below 256); a
    [float] is carried by its [repr] text and a [datetime] by its
    [isoformat()] text; a [dict] has [str] keys and keeps insertion
    order.  [VOpaque] is any other object that [json.dumps] rejects (a
    date, a set, a [Decimal], an SDK object), known by what the tools
    observe of it: its class name, its [str()], its truth value, and
    what its [isoformat()] returns when it has that method. *)
Inductive value : Type :=
| VNone
| VBool (b : bool)
| VInt (n : Z)
| VFloat (repr : string)
| VStr (s : string)
| VList (items : list value)
| VDict (entries : list (string * value))
| VDatetime (iso : string)
| VOpaque (cls : string) (text : string) (truth : bool) (iso : option string).

Definition dict : Type := list (string * value).

(** [type(v).__name__] *)
Definition type_name (v : value) : string :=
  match v with
  | VNone => "NoneType"
  | VBool _ => "bool"
  | VInt _ => "int"
  | VFloat _ => "float"
  | VStr _ => "str"
  | VList _ => "list"
  | VDict _ => "dict"
  | VDatetime _ => "datetime"
  | VOpaque cls _ _ _ => cls
  end.

(** [v is not None] *)
Definition is_not_None (v : value) : bool :=
  match v with VNone => false | _ => true end.

(** Truth value of [v] in an [if]. *)
Definition truthy (v : value) : bool :=
  match v with
  | VNone => false
  | VBool b => b
  | VInt n => negb (n =? 0)
  | VFloat r => negb (String.eqb r "0.0" || String.eqb r "-0.0")
  | VStr s => negb (String.eqb s EmptyString)
  | VList l => match l with [] => false | _ => true end
  | VDict d => match d with [] => false | _ => true end
  | VDatetime _ => true
  | VOpaque _ _ truth _ => truth
  end.

(** Induction on values that reaches inside lists and dictionaries. *)
Section ValueInduction.

Variable P : value -> Prop.
Hypothesis case_None : P VNone.
Hypothesis case_Bool : forall b, P (VBool b).
Hypothesis case_Int : forall n, P (VInt n).
Hypothesis case_Float : forall repr, P (VFloat repr).
Hypothesis case_Str : forall s, P (VStr s).
Hypothesis case_List : forall items, Forall P items -> P (VList items).
Hypothesis case_Dict :
  forall entries, Forall (fun kv => P (snd kv)) entries -> P (VDict entries).
Hypothesis case_Datetime : forall iso, P (VDatetime iso).
Hypothesis case_Opaque :
  forall cls text truth iso, P (VOpaque cls text truth iso).

Fixpoint value_nested_ind (v : value) : P v :=
  match v with
  | VNone => case_None
  | VBool b => case_Bool b
  | VInt n => case_Int n
  | VFloat repr => case_Float repr
  | VStr s => case_Str s
  | VList items =>
      case_List items
        ((fix all (l : list value) : Forall P l :=
            match l with
            | [] => Forall_nil P
            | x :: rest => Forall_cons x (value_nested_ind x) (all rest)
            end) items)
  | VDict entries =>
      case_Dict entries
        ((fix all (l : list (string * value))
            : Forall (fun kv => P (snd kv)) l :=
            match l with
            | [] => Forall_nil _
            | (k, x) :: rest =>
                Forall_cons (P := fun kv => P (snd kv)) (k, x)
                  (value_nested_ind x) (all rest)
            end) entries)
  | VDatetime iso => case_Datetime iso
  | VOpaque cls text truth iso => case_Opaque cls text truth iso
  end.

End ValueInduction.

(** *** Dictionaries *)

Fixpoint dict_get (k : string) (d : dict) : option value :=
  match d with
  | [] => None
  | (k', v) :: rest => if String.eqb k k' then Some v else dict_get k rest
  end.

(** [d[k] = v]: overwrite in place, or append a new last entry. *)
Fixpoint dict_set (k : string) (v : value) (d : dict) : dict :=
  match d with
  | [] => [(k, v)]
  | (k', v') :: rest =>
      if String.eqb k k' then (k', v) :: rest
      else (k', v') :: dict_set k v rest
  end.

(** [d.pop(k, None)], for its effect on [d]. *)
Fixpoint dict_pop (k : string) (d : dict) : dict :=
  match d with
  | [] => []
  | (k', v') :: rest =>
      if String.eqb k k' then dict_pop k rest
      else (k', v') :: dict_pop k rest
  end.

(** [list(d.keys())] *)
Definition dict_keys (d : dict) : list string := map fst d.

(** [{k: v for k, v in d.items() if v is not None}] *)
Definition filter_not_None (d : dict) : dict :=
  filter (fun kv => is_not_None (snd kv)) d.

(** ** Text *)

(** [str(n)] for an [int]. *)
Definition str_of_int (n : Z) : string :=
  NilZero.string_of_int (Z.to_int n).

Definition dquote : ascii := "034"%char.
Definition backslash : ascii := "092"%char.

Definition hex_digit (n : N) : ascii :=
  if (n <? 10)%N then ascii_of_N (48 + n) else ascii_of_N (87 + n).

(** One character of [json.encoder.py_encode_basestring_ascii]:
    printable ASCII is kept, quote and backslash are escaped, the five
    short escapes are used, anything else becomes a [\u00xx] escape. *)
Definition json_escape_char (c : ascii) : string :=
  let n := N_of_ascii c in
  if Ascii.eqb c dquote then String backslash (String dquote EmptyString)
  else if Ascii.eqb c backslash then String backslash (String backslash EmptyString)
  else if ((32 <=? n) && (n <=? 126))%N then String c EmptyString
  else if (n =? 8)%N then "\b"
  else if (n =? 9)%N then "\t"
  else if (n =? 10)%N then "\n"
  else if (n =? 12)%N then "\f"
  else if (n =? 13)%N then "\r"
  else "\u00" ++ String (hex_digit (n / 16)) (String (hex_digit (n mod 16)) EmptyString).

Fixpoint json_escape (s : string) : string :=
  match s with
  | EmptyString => EmptyString
  | String c rest => json_escape_char c ++ json_escape rest
  end.

Definition json_string (s : string) : string :=
  String dquote (json_escape s ++ String dquote EmptyString).

(** [float.__repr__], with the encoder's names for the non-finite values. *)
Definition json_float (repr : string) : string :=
  if String.eqb repr "nan" then "NaN"
  else if String.eqb repr "inf" then "Infinity"
  else if String.eqb repr "-inf" then "-Infinity"
  else repr.

Definition not_serializable (v : value) : exn :=
  mkExn TypeError ("Object of type " ++ type_name v ++ " is not JSON serializable").

(** Apply [f] to the elements in order, stopping at the first that raises. *)
Definition traverse {A B} (f : A -> outcome B) : list A -> outcome (list B) :=
  fix go (l : list A) : outcome (list B) :=
    match l with
    | [] => Returned []
    | x :: rest =>
        match f x with
        | Raised e => Raised e
        | Returned y =>
            match go rest with
            | Raised e => Raised e
            | Returned ys => Returned (y :: ys)
            end
        end
    end.

(** [json.dumps(v)] with the default separators and [ensure_ascii]. *)
Fixpoint json_dumps (v : value) : outcome string :=
  match v with
  | VNone => Returned "null"
  | VBool true => Returned "true"
  | VBool false => Returned "false"
  | VInt n => Returned (str_of_int n)
  | VFloat r => Returned (json_float r)
  | VStr s => Returned (json_string s)
  | VList items =>
      match traverse json_dumps items with
      | Raised e => Raised e
      | Returned ss => Returned ("[" ++ String.concat ", " ss ++ "]")
      end
  | VDict entries =>
      match
        traverse
          (fun kv =>
             match json_dumps (snd kv) with
             | Raised e => Raised e
             | Returned s => Returned (json_string (fst kv) ++ ": " ++ s)
             end)
          entries
      with
      | Raised e => Raised e
      | Returned ss => Returned ("{" ++ String.concat ", " ss ++ "}")
      end
  | VDatetime _ => Raised (not_serializable v)
  | VOpaque _ _ _ _ => Raised (not_serializable v)
  end.

(** Values [json.dumps] accepts. *)
Fixpoint json_serializable (v : value) : bool :=
  match v with
  | VList items => forallb json_serializable items
  | VDict entries => forallb (fun kv => json_serializable (snd kv)) entries
  | VDatetime _ | VOpaque _ _ _ _ => false
  | _ => true
  end.

(** [json_datetime_serializer]: the [default=] hook for datetimes. *)
Definition json_datetime_serializer (obj : value) : outcome value :=
  match obj with
  | VDatetime iso => Returned (VStr iso)
  | _ => Raised (not_serializable obj)
  end.

(** ** SDK objects *)

(** An object returned by the client library: its class name, its data
    attributes, and the accessors the tools probe with [hasattr].
    [obj_model_dump] is [model_dump(exclude=...)], [obj_dict] is
    [dict()]; both belong to the library and may raise. *)
Record object : Type := mkObject {
  obj_class : string;
  obj_attrs : dict;
  obj_model_dump : option (list string -> outcome dict);
  obj_dict : option (outcome dict);
  obj_str : string
}.

(** Anything a remote call may hand back: plain data or an object. *)
Inductive thing : Type :=
| Val (v : value)
| Obj (o : object).

(** A task object; [task_get_annotations] is its [get_annotations()]. *)
Record task : Type := mkTask {
  task_obj : object;
  task_get_annotations : option (outcome (list thing))
}.

(** A pager, as a [for] loop consumes it: the items it yields, then
    either exhaustion or the error that fetching the next page raised. *)
Record pager (A : Type) : Type := mkPager {
  pager_items : list A;
  pager_end : option exn
}.
Arguments mkPager {A} _ _.
Arguments pager_items {A} _.
Arguments pager_end {A} _.

(** [hasattr(o, name)] for a data attribute. *)
Definition hasattr (o : object) (name : string) : bool :=
  match dict_get name (obj_attrs o) with Some _ => true | None => false end.

Definition no_attribute (cls name : string) : exn :=
  mkExn AttributeError ("'" ++ cls ++ "' object has no attribute '" ++ name ++ "'").

(** [o.name] *)
Definition getattr (o : object) (name : string) : outcome value :=
  match dict_get name (obj_attrs o) with
  | Some v => Returned v
  | None => Raised (no_attribute (obj_class o) name)
  end.

(** [getattr(o, name, default)] *)
Definition getattr_default (o : object) (name : string) (default : value) : value :=
  match dict_get name (obj_attrs o) with
  | Some v => v
  | None => default
  end.

(** What [v.isoformat()] returns, for a value that has the method:
    a datetime, or another object that carries one (a date, a time). *)
Definition isoformat_of (v : value) : option string :=
  match v with
  | VDatetime iso => Some iso
  | VOpaque _ _ _ (Some iso) => Some iso
  | _ => None
  end.

(** [v.isoformat()] *)
Definition isoformat (v : value) : outcome value :=
  match isoformat_of v with
  | Some iso => Returned (VStr iso)
  | None => Raised (no_attribute (type_name v) "isoformat")
  end.

(** ** The client and the runtime *)

(** The [LabelStudio] client: one entry per SDK method the tools call,
    from the keyword arguments to what the call returns or raises. *)
Record LabelStudio : Type := mkLabelStudio {
  projects_list : dict -> outcome (pager object);
  projects_get : dict -> outcome object;
  projects_create : dict -> outcome object;
  projects_update : dict -> outcome object;
  projects_import_tasks : dict -> outcome thing;
  tasks_list : dict -> outcome (pager task);
  tasks_get : dict -> outcome task;
  predictions_create : dict -> outcome object
}.

(** What the tools use of the interpreter and its standard library:
    [open(path, 'r')] with the file's text, [json.load] on that text,
    [traceback.format_exc()] for the exception being handled, and
    [repr] of a list or dict. *)
Record runtime : Type := mkRuntime {
  open_file : string -> outcome string;
  json_load : string -> outcome value;
  format_exc : exn -> string;
  repr_container : value -> string
}.

(** [str(datetime)] is [isoformat] with a space for the [T]. *)
Fixpoint space_for_T (s : string) : string :=
  match s with
  | EmptyString => EmptyString
  | String c rest =>
      String (if Ascii.eqb c "T"%char then " "%char else c) (space_for_T rest)
  end.

(** [str(v)], as an f-string formats [v]. *)
Definition py_str (rt : runtime) (v : value) : string :=
  match v with
  | VNone => "None"
  | VBool true => "True"
  | VBool false => "False"
  | VInt n => str_of_int n
  | VFloat r => r
  | VStr s => s
  | VList _ | VDict _ => repr_container rt v
  | VDatetime iso => space_for_T iso
  | VOpaque _ text _ _ => text
  end.

Definition thing_str (rt : runtime) (x : thing) : string :=
  match x with
  | Val v => py_str rt v
  | Obj o => obj_str o
  end.

(** ** mcp_env.py *)

(** The module's globals after import. *)
Record mcp_env : Type := mkEnv {
  LABEL_STUDIO_URL : string;
  LABEL_STUDIO_API_KEY : option string;
  ls : option LabelStudio
}.

(** [os.getenv(key, default)] *)
Definition getenv (environ : string -> option string) (key : string)
    (default : option string) : option string :=
  match environ key with
  | Some v => Some v
  | None => default
  end.

(** Module initialisation: the client is built only when the API key is
    set and non-empty, and a failing constructor leaves [ls] at [None]. *)
Definition load_mcp_env (environ : string -> option string)
    (connect : string -> string -> outcome LabelStudio) : mcp_env :=
  let url :=
    match getenv environ "LABEL_STUDIO_URL" (Some "http://localhost:8080") with
    | Some u => u
    | None => "http://localhost:8080"
    end in
  let api_key := getenv environ "LABEL_STUDIO_API_KEY" None in
  let client :=
    match api_key with
    | Some k =>
        if truthy (VStr k) then
          match connect url k with
          | Returned c => Some c
          | Raised _ => None
          end
        else None
    | None => None
    end in
  mkEnv url api_key client.

(** ** Effects *)

(** What a tool does to the outside world. *)
Inductive event : Type :=
| RemoteCall (method : string) (kwargs : dict)
| FileOpen (path : string).

Definition trace : Type := list event.

(** A computation: from the events so far to its outcome and the
    events after it. *)
Definition M (A : Type) : Type := trace -> outcome A * trace.

Definition ret {A} (a : A) : M A := fun tr => (Returned a, tr).

Definition raise {A} (e : exn) : M A := fun tr => (Raised e, tr).

Definition bind {A B} (m : M A) (k : A -> M B) : M B :=
  fun tr =>
    match m tr with
    | (Returned a, tr') => k a tr'
    | (Raised e, tr') => (Raised e, tr')
    end.

Definition lift {A} (o : outcome A) : M A := fun tr => (o, tr).

Definition emit (ev : event) : M unit := fun tr => (Returned tt, (tr ++ [ev])%list).

(** [try: body / except Exception as e: handler e] *)
Definition try_except {A} (body : M A) (handler : exn -> M A) : M A :=
  fun tr =>
    match body tr with
    | (Returned a, tr') => (Returned a, tr')
    | (Raised e, tr') => handler e tr'
    end.

Declare Scope py_scope.
Delimit Scope py_scope with py.
Notation "x <- m ;; k" := (bind m (fun x => k))
  (at level 61, m at next level, right associativity) : py_scope.
Notation "m ;;; k" := (bind m (fun _ => k))
  (at level 61, right associativity) : py_scope.
#[local] Open Scope py_scope.

(** Run a tool from an empty log. *)
Definition run {A} (m : M A) : outcome A * trace := m [].

(** ** mcp_server.py: the tool functions *)

(** An optional parameter at a call site: left out, or passed. *)
Inductive arg (A : Type) : Type :=
| Omitted
| Passed (a : A).
Arguments Omitted {A}.
Arguments Passed {A} a.

(** Binding a parameter that has a default. *)
Definition or_default {A} (default : A) (a : arg A) : A :=
  match a with
  | Omitted => default
  | Passed x => x
  end.

(** An [Optional[...]] parameter as the value it holds. *)
Definition of_option {A} (inj : A -> value) (o : option A) : value :=
  match o with
  | Some a => inj a
  | None => VNone
  end.

Definition newline : string := String "010"%char EmptyString.

(** The functions as written, before [require_ls_connection] wraps them. *)
Module Func.
Section Bodies.

Variable rt : runtime.
Variable env : mcp_env.

(** A call [ls.<group>.<method>] with keyword arguments: the attribute
    lookup fails on an unset handle; otherwise the call is logged and
    answered by the client. *)
Definition remote {A} (group method : string)
    (call : LabelStudio -> dict -> outcome A) (kwargs : dict) : M A :=
  match ls env with
  | None => raise (no_attribute "NoneType" group)
  | Some client =>
      emit (RemoteCall (group ++ "." ++ method) kwargs) ;;;
      lift (call client kwargs)
  end.

(** [return json.dumps(v)] *)
Definition return_json (v : value) : M value :=
  s <- lift (json_dumps v) ;;
  ret (VStr s).

(** The loop of [get_label_studio_projects_tool]: [stop] is how the
    pager ends, the two accumulators are the loop's variables. *)
Fixpoint projects_loop (items : list object) (stop : option exn)
    (projects_summary : list value) (projects_processed : Z)
    : outcome (list value) :=
  match items with
  | [] =>
      match stop with
      | None => Returned projects_summary
      | Some e => Raised e
      end
  | project :: rest =>
      if projects_processed >=? 100 then Returned projects_summary
      else
        match getattr project "id" with
        | Raised e => Raised e
        | Returned id =>
            let project_data :=
              [ ("id", id);
                ("title", getattr_default project "title" (VStr "N/A"));
                ("task_count", getattr_default project "task_number" (VInt 0)) ] in
            projects_loop rest stop
              (projects_summary ++ [VDict project_data])%list
              (projects_processed + 1)
        end
  end.

Definition get_label_studio_projects_tool : M value :=
  projects_pager <- remote "projects" "list" projects_list [] ;;
  projects_summary <-
    lift (projects_loop (pager_items projects_pager) (pager_end projects_pager) [] 0) ;;
  return_json (VList projects_summary).

(** [project.created_at.isoformat() if project.created_at else None] *)
Definition created_at_iso (project : object) : outcome value :=
  match getattr project "created_at" with
  | Raised e => Raised e
  | Returned created_at =>
      if truthy created_at then isoformat created_at else Returned VNone
  end.

Definition get_label_studio_project_details_tool (project_id : Z) : M value :=
  project <- remote "projects" "get" projects_get [("id", VInt project_id)] ;;
  match obj_model_dump project with
  | Some model_dump =>
      project_data <- lift (model_dump ["created_at"; "updated_at"]) ;;
      created_at <- lift (created_at_iso project) ;;
      let project_data := dict_set "created_at" created_at project_data in
      return_json (VDict project_data)
  | None =>
      match obj_dict project with
      | Some dict_ =>
          project_dict <- lift dict_ ;;
          created_at <- lift (created_at_iso project) ;;
          let project_dict := dict_set "created_at" created_at project_dict in
          let project_dict := dict_pop "updated_at" project_dict in
          return_json (VDict project_dict)
      | None =>
          id <- lift (getattr project "id") ;;
          return_json
            (VDict [ ("id", id);
                     ("title", getattr_default project "title" (VStr "N/A")) ])
      end
  end.

Definition get_label_studio_project_config_tool (project_id : Z) : M value :=
  project <- remote "projects" "get" projects_get [("id", VInt project_id)] ;;
  lift (getattr project "label_config").

(** [list(task.data.keys())] when [task.data] exists and is a dict,
    else the empty list. *)
Definition data_keys (t : task) : value :=
  match dict_get "data" (obj_attrs (task_obj t)) with
  | Some (VDict data) => VList (map VStr (dict_keys data))
  | _ => VList []
  end.

Fixpoint tasks_loop (items : list task) (stop : option exn)
    (task_list_summary : list value) (tasks_processed : Z)
    : outcome (list value) :=
  match items with
  | [] =>
      match stop with
      | None => Returned task_list_summary
      | Some e => Raised e
      end
  | t :: rest =>
      if tasks_processed >=? 50 then Returned task_list_summary
      else
        match getattr (task_obj t) "id" with
        | Raised e => Raised e
        | Returned id =>
            let task_summary := [("id", id)] in
            let task_summary := dict_set "data_keys" (data_keys t) task_summary in
            tasks_loop rest stop
              (task_list_summary ++ [VDict task_summary])%list
              (tasks_processed + 1)
        end
  end.

Definition list_label_studio_project_tasks_tool (project_id : Z) : M value :=
  tasks_pager <- remote "tasks" "list" tasks_list [("project", VInt project_id)] ;;
  task_list_summary <-
    lift (tasks_loop (pager_items tasks_pager) (pager_end tasks_pager) [] 0) ;;
  return_json (VList task_list_summary).

Definition get_label_studio_task_data_tool (project_id task_id : Z) : M value :=
  t <- remote "tasks" "get" tasks_get [("id", VInt task_id)] ;;
  match dict_get "data" (obj_attrs (task_obj t)) with
  | Some data => return_json data
  | None => return_json (VDict [])
  end.

(** One annotation, by the accessor priority of the source. *)
Definition serialize_annotation (anno : thing) : outcome value :=
  let dumped (d : outcome dict) : outcome value :=
    match d with
    | Returned d => Returned (VDict d)
    | Raised e => Raised e
    end in
  match anno with
  | Obj o =>
      match obj_model_dump o with
      | Some model_dump => dumped (model_dump [])
      | None =>
          match obj_dict o with
          | Some dict_ => dumped dict_
          | None => Returned (VDict [("details", VStr (obj_str o))])
          end
      end
  | Val (VDict d) => Returned (VDict d)
  | Val v => Returned (VDict [("details", VStr (py_str rt v))])
  end.

Fixpoint annotations_loop (annotations : list thing)
    (serialized_annotations : list value) : outcome (list value) :=
  match annotations with
  | [] => Returned serialized_annotations
  | anno :: rest =>
      match serialize_annotation anno with
      | Raised e => Raised e
      | Returned a =>
          annotations_loop rest (serialized_annotations ++ [a])%list
      end
  end.

Definition get_label_studio_task_annotations_tool (project_id task_id : Z)
    : M value :=
  t <- remote "tasks" "get" tasks_get [("id", VInt task_id)] ;;
  match task_get_annotations t with
  | None =>
      raise (mkExn AttributeError
               ("Task object (id: " ++ str_of_int task_id
                ++ ") does not have get_annotations method."))
  | Some get_annotations =>
      emit (RemoteCall "task.get_annotations" []) ;;;
      annotations <- lift get_annotations ;;
      serialized_annotations <- lift (annotations_loop annotations []) ;;
      return_json (VList serialized_annotations)
  end.

(** The loops that copy optional attributes of a result into the
    response, turning a value that has [isoformat] into what it returns. *)
Definition copy_attrs (o : object) (names : list string) (response_data : dict)
    : dict :=
  fold_left
    (fun response_data attr =>
       match dict_get attr (obj_attrs o) with
       | Some value =>
           match isoformat_of value with
           | Some iso => dict_set attr (VStr iso) response_data
           | None => dict_set attr value response_data
           end
       | None => response_data
       end)
    names response_data.

Definition create_label_studio_project_tool
    (title label_config : string)
    (description expert_instruction : arg (option string))
    (show_instruction show_skip_button enable_empty_annotation
       show_annotation_history : arg (option bool))
    (color : arg (option string)) : M value :=
  let description := or_default None description in
  let expert_instruction := or_default None expert_instruction in
  let show_instruction := or_default (Some false) show_instruction in
  let show_skip_button := or_default (Some true) show_skip_button in
  let enable_empty_annotation := or_default (Some true) enable_empty_annotation in
  let show_annotation_history := or_default (Some false) show_annotation_history in
  let color := or_default None color in
  let kwargs :=
    [ ("title", VStr title);
      ("label_config", VStr label_config);
      ("description", of_option VStr description);
      ("expert_instruction", of_option VStr expert_instruction);
      ("show_instruction", of_option VBool show_instruction);
      ("show_skip_button", of_option VBool show_skip_button);
      ("enable_empty_annotation", of_option VBool enable_empty_annotation);
      ("show_annotation_history", of_option VBool show_annotation_history);
      ("color", of_option VStr color) ] in
  let filtered_kwargs := filter_not_None kwargs in
  project <- remote "projects" "create" projects_create filtered_kwargs ;;
  id <- lift (getattr project "id") ;;
  let project_url :=
    LABEL_STUDIO_URL env ++ "/projects/" ++ py_str rt id ++ "/data" in
  title' <- lift (getattr project "title") ;;
  let response_data :=
    [ ("id", id); ("title", title'); ("project_url", VStr project_url) ] in
  let response_data :=
    copy_attrs project
      ["description"; "color"; "expert_instruction"; "created_at"; "label_config"]
      response_data in
  return_json (VDict response_data).

Definition update_label_studio_project_config_tool
    (project_id : Z) (new_label_config : string) : M value :=
  try_except
    (updated_project <-
       remote "projects" "update" projects_update
         [("id", VInt project_id); ("label_config", VStr new_label_config)] ;;
     id <- lift (getattr updated_project "id") ;;
     let project_url :=
       LABEL_STUDIO_URL env ++ "/projects/" ++ py_str rt id ++ "/data" in
     let response_data :=
       [ ("id", id);
         ("title", getattr_default updated_project "title" (VStr "N/A"));
         ("label_config",
          getattr_default updated_project "label_config" (VStr new_label_config));
         ("project_url", VStr project_url);
         ("message", VStr "Project configuration updated successfully.") ] in
     let response_data :=
       copy_attrs updated_project
         ["description"; "color"; "expert_instruction"; "created_at"]
         response_data in
     return_json (VDict response_data))
    (fun e =>
       ret (VStr ("Error during Label Studio project config update API call: "
                  ++ class_name (exn_cls e) ++ " - " ++ exn_msg e
                  ++ newline ++ format_exc rt e))).

(** The [try] block of [import_label_studio_project_tasks_tool]: open
    the file, parse it, insist on a list. *)
Definition read_tasks_file (tasks_file_path : string) : M value :=
  emit (FileOpen tasks_file_path) ;;;
  f <- lift (open_file rt tasks_file_path) ;;
  tasks_list <- lift (json_load rt f) ;;
  match tasks_list with
  | VList _ => ret tasks_list
  | _ =>
      raise (mkExn ValueError
               ("JSON file '" ++ tasks_file_path
                ++ "' must contain a valid JSON array (list)."))
  end.

(** Its [except] clauses, in source order. *)
Definition tasks_file_error (tasks_file_path : string) (e : exn) : string :=
  if isinstance_exn e FileNotFoundError then
    "Error: Tasks file not found at path: " ++ tasks_file_path
  else if isinstance_exn e PermissionError then
    "Error: Permission denied when trying to read file: " ++ tasks_file_path
  else if isinstance_exn e JSONDecodeError then
    "Error: Invalid JSON format in file '" ++ tasks_file_path ++ "' - " ++ exn_msg e
  else if isinstance_exn e ValueError then
    "Error processing tasks file: " ++ exn_msg e
  else
    "Unexpected error reading/processing tasks file '" ++ tasks_file_path
    ++ "': " ++ class_name (exn_cls e) ++ " - " ++ exn_msg e
    ++ newline ++ format_exc rt e.

(** The response dictionary built from what the import call returned. *)
Definition import_response (import_result : thing) : outcome dict :=
  match import_result with
  | Val (VDict d) => Returned d
  | Obj o =>
      match obj_model_dump o with
      | Some model_dump => model_dump []
      | None =>
          match obj_dict o with
          | Some dict_ => dict_
          | None =>
              Returned [ ("message", VStr "Import initiated");
                         ("details", VStr (obj_str o)) ]
          end
      end
  | Val v =>
      Returned [ ("message", VStr "Import initiated");
                 ("details", VStr (py_str rt v)) ]
  end.

Definition import_label_studio_project_tasks_tool
    (project_id : Z) (tasks_file_path : string) : M value :=
  loaded <-
    try_except
      (tasks_list <- read_tasks_file tasks_file_path ;; ret (inl tasks_list))
      (fun e => ret (inr (tasks_file_error tasks_file_path e))) ;;
  match loaded with
  | inr message => ret (VStr message)
  | inl tasks_list =>
      let project_url :=
        LABEL_STUDIO_URL env ++ "/projects/" ++ str_of_int project_id ++ "/data" in
      imported <-
        try_except
          (import_result <-
             remote "projects" "import_tasks" projects_import_tasks
               [("id", VInt project_id); ("request", tasks_list)] ;;
           ret (inl import_result))
          (fun e =>
             ret (inr ("Error during Label Studio task import API call: "
                       ++ class_name (exn_cls e) ++ " - " ++ exn_msg e
                       ++ newline ++ format_exc rt e))) ;;
      match imported with
      | inr message => ret (VStr message)
      | inl import_result =>
          final_response <- lift (import_response import_result) ;;
          let final_response :=
            dict_set "project_url" (VStr project_url) final_response in
          return_json (VDict final_response)
      end
  end.

(** The whitelist loop of [create_label_studio_prediction_tool]: a
    datetime is ISO-formatted, basic JSON types and [None] are copied,
    anything else is skipped. *)
Definition copy_basic_attrs (o : object) (names : list string)
    (response_data : dict) : dict :=
  fold_left
    (fun response_data attr_name =>
       match dict_get attr_name (obj_attrs o) with
       | Some (VDatetime iso) => dict_set attr_name (VStr iso) response_data
       | Some (VOpaque _ _ _ _) => response_data
       | Some v => dict_set attr_name v response_data
       | None => response_data
       end)
    names response_data.

Definition create_label_studio_prediction_tool
    (task_id : Z) (result : list dict)
    (model_version : arg (option string)) (score : arg (option string))
    : M value :=
  let model_version := or_default None model_version in
  let score := or_default None score in
  let sdk_kwargs :=
    [ ("task", VInt task_id);
      ("result", VList (map VDict result));
      ("model_version", of_option VStr model_version);
      ("score", of_option VFloat score) ] in
  let filtered_sdk_kwargs := filter_not_None sdk_kwargs in
  try_except
    (created_prediction <-
       remote "predictions" "create" predictions_create filtered_sdk_kwargs ;;
     let response_data := [("message", VStr "Prediction created successfully.")] in
     let response_data :=
       copy_basic_attrs created_prediction
         ["id"; "task"; "model_version"; "score"; "result"; "created_at"; "updated_at"]
         response_data in
     return_json (VDict response_data))
    (fun e =>
       ret (VStr ("Error during Label Studio prediction create/serialize: "
                  ++ class_name (exn_cls e) ++ " - " ++ exn_msg e
                  ++ newline ++ format_exc rt e))).

End Bodies.
End Func.

(** ** The connection guard and the registered tools *)

Definition client_not_available : string :=
  "Error: Label Studio client not available. "
  ++ "Please check server logs for initialization errors "
  ++ "(e.g., missing 'LABEL_STUDIO_API_KEY', invalid key, or connection issue with 'LABEL_STUDIO_URL').".

(** [f"Error in function '{func.__name__}': [{error_type}] {error_details}"] *)
Definition error_in_function (name : string) (e : exn) : string :=
  "Error in function '" ++ name ++ "': [" ++ class_name (exn_cls e) ++ "] "
  ++ exn_msg e.

(** The ten tools with their arguments, as the host invokes them. *)
Inductive tool_call : Type :=
| GetProjects
| GetProjectDetails (project_id : Z)
| GetProjectConfig (project_id : Z)
| ListProjectTasks (project_id : Z)
| GetTaskData (project_id task_id : Z)
| GetTaskAnnotations (project_id task_id : Z)
| CreateProject (title label_config : string)
    (description expert_instruction : arg (option string))
    (show_instruction show_skip_button enable_empty_annotation
       show_annotation_history : arg (option bool))
    (color : arg (option string))
| UpdateProjectConfig (project_id : Z) (new_label_config : string)
| ImportProjectTasks (project_id : Z) (tasks_file_path : string)
| CreatePrediction (task_id : Z) (result : list dict)
    (model_version : arg (option string)) (score : arg (option string)).

Section Server.

Variable rt : runtime.
Variable env : mcp_env.

(** The wrapper [require_ls_connection] returns for a function called
    [name]; [call] is the wrapped function applied to the wrapper's
    arguments, run only where the wrapper runs it. *)
Definition require_ls_connection (name : string) (call : M value) : M value :=
  fun tr =>
    match ls env with
    | None => (Returned (VStr client_not_available), tr)
    | Some _ =>
        match call tr with
        | (Returned v, tr') => (Returned v, tr')
        | (Raised e, tr') => (Returned (VStr (error_in_function name e)), tr')
        end
    end.

Definition get_label_studio_projects_tool : M value :=
  require_ls_connection "get_label_studio_projects_tool"
    (Func.get_label_studio_projects_tool env).

Definition get_label_studio_project_details_tool (project_id : Z) : M value :=
  require_ls_connection "get_label_studio_project_details_tool"
    (Func.get_label_studio_project_details_tool env project_id).

Definition get_label_studio_project_config_tool (project_id : Z) : M value :=
  require_ls_connection "get_label_studio_project_config_tool"
    (Func.get_label_studio_project_config_tool env project_id).

Definition list_label_studio_project_tasks_tool (project_id : Z) : M value :=
  require_ls_connection "list_label_studio_project_tasks_tool"
    (Func.list_label_studio_project_tasks_tool env project_id).

Definition get_label_studio_task_data_tool (project_id task_id : Z) : M value :=
  require_ls_connection "get_label_studio_task_data_tool"
    (Func.get_label_studio_task_data_tool env project_id task_id).

Definition get_label_studio_task_annotations_tool (project_id task_id : Z)
    : M value :=
  require_ls_connection "get_label_studio_task_annotations_tool"
    (Func.get_label_studio_task_annotations_tool rt env project_id task_id).

Definition create_label_studio_project_tool
    (title label_config : string)
    (description expert_instruction : arg (option string))
    (show_instruction show_skip_button enable_empty_annotation
       show_annotation_history : arg (option bool))
    (color : arg (option string)) : M value :=
  require_ls_connection "create_label_studio_project_tool"
    (Func.create_label_studio_project_tool rt env title label_config
       description expert_instruction show_instruction show_skip_button
       enable_empty_annotation show_annotation_history color).

Definition update_label_studio_project_config_tool
    (project_id : Z) (new_label_config : string) : M value :=
  require_ls_connection "update_label_studio_project_config_tool"
    (Func.update_label_studio_project_config_tool rt env project_id new_label_config).

Definition import_label_studio_project_tasks_tool
    (project_id : Z) (tasks_file_path : string) : M value :=
  require_ls_connection "import_label_studio_project_tasks_tool"
    (Func.import_label_studio_project_tasks_tool rt env project_id tasks_file_path).

Definition create_label_studio_prediction_tool
    (task_id : Z) (result : list dict)
    (model_version : arg (option string)) (score : arg (option string))
    : M value :=
  require_ls_connection "create_label_studio_prediction_tool"
    (Func.create_label_studio_prediction_tool rt env task_id result
       model_version score).

(** Dispatch of a call to the tool registered under its name. *)
Definition invoke (c : tool_call) : M value :=
  match c with
  | GetProjects => get_label_studio_projects_tool
  | GetProjectDetails project_id =>
      get_label_studio_project_details_tool project_id
  | GetProjectConfig project_id =>
      get_label_studio_project_config_tool project_id
  | ListProjectTasks project_id =>
      list_label_studio_project_tasks_tool project_id
  | GetTaskData project_id task_id =>
      get_label_studio_task_data_tool project_id task_id
  | GetTaskAnnotations project_id task_id =>
      get_label_studio_task_annotations_tool project_id task_id
  | CreateProject title label_config description expert_instruction
      show_instruction show_skip_button enable_empty_annotation
      show_annotation_history color =>
      create_label_studio_project_tool title label_config description
        expert_instruction show_instruction show_skip_button
        enable_empty_annotation show_annotation_history color
  | UpdateProjectConfig project_id new_label_config =>
      update_label_studio_project_config_tool project_id new_label_config
  | ImportProjectTasks project_id tasks_file_path =>
      import_label_studio_project_tasks_tool project_id tasks_file_path
  | CreatePrediction task_id result model_version score =>
      create_label_studio_prediction_tool task_id result model_version score
  end.

End Server.

(** [func.__name__] of the function behind a call. *)
Definition tool_name (c : tool_call) : string :=
  match c with
  | GetProjects => "get_label_studio_projects_tool"
  | GetProjectDetails _ => "get_label_studio_project_details_tool"
  | GetProjectConfig _ => "get_label_studio_project_config_tool"
  | ListProjectTasks _ => "list_label_studio_project_tasks_tool"
  | GetTaskData _ _ => "get_label_studio_task_data_tool"
  | GetTaskAnnotations _ _ => "get_label_studio_task_annotations_tool"
  | CreateProject _ _ _ _ _ _ _ _ _ => "create_label_studio_project_tool"
  | UpdateProjectConfig _ _ => "update_label_studio_project_config_tool"
  | ImportProjectTasks _ _ => "import_label_studio_project_tasks_tool"
  | CreatePrediction _ _ _ _ => "create_label_studio_prediction_tool"
  end.

(** The undecorated function behind a call, applied to its arguments. *)
Definition tool_func (rt : runtime) (env : mcp_env) (c : tool_call) : M value :=
  match c with
  | GetProjects => Func.get_label_studio_projects_tool env
  | GetProjectDetails project_id =>
      Func.get_label_studio_project_details_tool env project_id
  | GetProjectConfig project_id =>
      Func.get_label_studio_project_config_tool env project_id
  | ListProjectTasks project_id =>
      Func.list_label_studio_project_tasks_tool env project_id
  | GetTaskData project_id task_id =>
      Func.get_label_studio_task_data_tool env project_id task_id
  | GetTaskAnnotations project_id task_id =>
      Func.get_label_studio_task_annotations_tool rt env project_id task_id
  | CreateProject title label_config description expert_instruction
      show_instruction show_skip_button enable_empty_annotation
      show_annotation_history color =>
      Func.create_label_studio_project_tool rt env title label_config
        description expert_instruction show_instruction show_skip_button
        enable_empty_annotation show_annotation_history color
  | UpdateProjectConfig project_id new_label_config =>
      Func.update_label_studio_project_config_tool rt env project_id
        new_label_config
  | ImportProjectTasks project_id tasks_file_path =>
      Func.import_label_studio_project_tasks_tool rt env project_id
        tasks_file_path
  | CreatePrediction task_id result model_version score =>
      Func.create_label_studio_prediction_tool rt env task_id result
        model_version score
  end.

(** The keyword arguments of the calls to [method] in a log. *)
Fixpoint sent_to (method : string) (tr : trace) : list dict :=
  match tr with
  | [] => []
  | RemoteCall m kwargs :: rest =>
      if String.eqb m method then kwargs :: sent_to method rest
      else sent_to method rest
  | FileOpen _ :: rest => sent_to method rest
  end.

(** The remote calls in a log. *)
Definition remote_calls (tr : trace) : trace :=
  filter (fun ev => match ev with RemoteCall _ _ => true | FileOpen _ => false end) tr.

(** An accessor that honours [exclude]: no excluded field is a key of
    what it returns. *)
Definition honours_exclude (model_dump : list string -> outcome dict) : Prop :=
  forall exclude d k,
    model_dump exclude = Returned d -> In k exclude -> dict_get k d = None.

(** ** A sample deployment

    A small platform with two projects and two tasks, and a file system
    with three files, on which the statements below are exercised. *)
Module Sample.

(** [model_dump] of a pydantic-style object with the given fields. *)
Definition dump_fields (fields : dict) (exclude : list string) : outcome dict :=
  Returned (filter (fun kv => negb (existsb (String.eqb (fst kv)) exclude)) fields).

Definition demo_fields : dict :=
  [ ("id", VInt 7);
    ("title", VStr "Demo");
    ("label_config", VStr "<View/>");
    ("created_at", VDatetime "2024-05-01T12:00:00");
    ("updated_at", VDatetime "2024-05-02T08:30:00");
    ("task_number", VInt 2) ].

Definition demo_project : object :=
  mkObject "Project" demo_fields (Some (dump_fields demo_fields)) None
    "Project(id=7)".

(** A project record without title and task number. *)
Definition bare_fields : dict := [ ("id", VInt 8); ("created_at", VNone) ].

Definition bare_project : object :=
  mkObject "Project" bare_fields (Some (dump_fields bare_fields)) None
    "Project(id=8)".

Definition hello_task : task :=
  mkTask
    (mkObject "Task" [("id", VInt 1); ("data", VDict [("text", VStr "hello")])]
       None None "Task(id=1)")
    (Some (Returned [Val (VDict [("id", VInt 5); ("result", VList [])])])).

Definition blank_task : task :=
  mkTask (mkObject "Task" [("id", VInt 2)] None None "Task(id=2)") None.

Definition not_found : exn := mkExn (UserError "ApiError") "status_code: 404".

Definition client : LabelStudio :=
  {| projects_list := fun _ => Returned (mkPager [demo_project; bare_project] None);
     projects_get := fun kwargs =>
       match dict_get "id" kwargs with
       | Some (VInt 7) => Returned demo_project
       | Some (VInt 8) => Returned bare_project
       | _ => Raised not_found
       end;
     projects_create := fun _ => Returned demo_project;
     projects_update := fun _ => Returned demo_project;
     projects_import_tasks := fun _ => Returned (Val (VDict [("task_count", VInt 1)]));
     tasks_list := fun _ => Returned (mkPager [hello_task; blank_task] None);
     tasks_get := fun kwargs =>
       match dict_get "id" kwargs with
       | Some (VInt 1) => Returned hello_task
       | Some (VInt 2) => Returned blank_task
       | _ => Raised not_found
       end;
     predictions_create := fun _ =>
       Returned (mkObject "Prediction" [("id", VInt 11); ("task", VInt 1)]
                   None None "Prediction(id=11)") |}.

Definition text_of (v : value) : string :=
  match json_dumps v with
  | Returned s => s
  | Raised _ => EmptyString
  end.

Definition hello_tasks : value :=
  VList [VDict [("data", VDict [("text", VStr "hello")])]].

Definition not_a_list : value := VDict [("not", VStr "a list")].

(** [tasks.json] holds a one-task array, [object.json] a JSON object,
    [broken.json] is not JSON, [secret.json] is unreadable; nothing
    else exists. *)
Definition rt : runtime :=
  {| open_file := fun path =>
       if String.eqb path "tasks.json" then Returned (text_of hello_tasks)
       else if String.eqb path "object.json" then Returned (text_of not_a_list)
       else if String.eqb path "broken.json" then Returned "[1,"
       else if String.eqb path "secret.json" then
         Raised (mkExn PermissionError "[Errno 13] Permission denied: 'secret.json'")
       else
         Raised (mkExn FileNotFoundError
                   ("[Errno 2] No such file or directory: '" ++ path ++ "'"));
     json_load := fun text =>
       if String.eqb text (text_of hello_tasks) then Returned hello_tasks
       else if String.eqb text (text_of not_a_list) then Returned not_a_list
       else Raised (mkExn JSONDecodeError "Expecting value: line 1 column 4 (char 3)");
     format_exc := fun e =>
       "Traceback (most recent call last): " ++ class_name (exn_cls e);
     repr_container := fun _ => "[...]" |}.

Definition connect (url api_key : string) : outcome LabelStudio :=
  Returned client.

(** A platform holding 150 projects, whose pager fails after the last. *)
Definition crowded_client : LabelStudio :=
  {| projects_list := fun _ =>
       Returned (mkPager (repeat bare_project 150) (Some not_found));
     projects_get := projects_get client;
     projects_create := projects_create client;
     projects_update := projects_update client;
     projects_import_tasks := projects_import_tasks client;
     tasks_list := tasks_list client;
     tasks_get := tasks_get client;
     predictions_create := predictions_create client |}.

Definition environ_with_key (key : string) : option string :=
  if String.eqb key "LABEL_STUDIO_API_KEY" then Some "token" else None.

Definition environ_empty (key : string) : option string := None.

(** The module's globals with and without an API key in the environment. *)
Definition connected : mcp_env := load_mcp_env environ_with_key connect.
Definition disconnected : mcp_env := load_mcp_env environ_empty connect.
Definition crowded : mcp_env :=
  load_mcp_env environ_with_key (fun _ _ => Returned crowded_client).

End Sample.

(** ** A failing deployment

    A platform whose pagers break down, whose writes are refused and
    which holds a record without an id. *)
Module Outage.

Definition timeout : exn := mkExn (UserError "ReadTimeout") "timed out".

Definition forbidden : exn := mkExn (UserError "ApiError") "status_code: 403".

(** A record that lost its [id]. *)
Definition nameless_project : object :=
  mkObject "Project" [("title", VStr "Draft")] None None "Project()".

(** A project whose [created_at] came back as text. *)
Definition texted_project : object :=
  mkObject "Project" [("id", VInt 9); ("created_at", VStr "2024-05-01")]
    (Some (Sample.dump_fields [("id", VInt 9)])) None "Project(id=9)".

(** A project without accessors, and one with the plain-dict accessor only. *)
Definition plain_project : object :=
  mkObject "Project" [("id", VInt 3)] None None "Project(id=3)".

Definition legacy_project : object :=
  mkObject "Project"
    [("id", VInt 4); ("created_at", VDatetime "2023-01-15T09:00:00")]
    None
    (Some (Returned [ ("id", VInt 4);
                      ("updated_at", VDatetime "2023-02-01T10:00:00");
                      ("title", VStr "Legacy") ]))
    "Project(id=4)".

(** [projects.list] yields exactly 100 projects and then fails;
    [tasks.list] yields one task and then fails; project 1 has no id;
    every write is refused. *)
Definition client : LabelStudio :=
  {| projects_list := fun _ =>
       Returned (mkPager (repeat Sample.bare_project 100) (Some timeout));
     projects_get := fun kwargs =>
       match dict_get "id" kwargs with
       | Some (VInt 1) => Returned nameless_project
       | Some (VInt 3) => Returned plain_project
       | Some (VInt 4) => Returned legacy_project
       | Some (VInt 9) => Returned texted_project
       | _ => Raised Sample.not_found
       end;
     projects_create := fun _ => Raised forbidden;
     projects_update := fun _ => Raised forbidden;
     projects_import_tasks := fun _ => Raised forbidden;
     tasks_list := fun _ => Returned (mkPager [Sample.hello_task] (Some timeout));
     tasks_get := fun _ => Returned Sample.blank_task;
     predictions_create := fun _ => Raised forbidden |}.

Definition env : mcp_env :=
  load_mcp_env Sample.environ_with_key (fun _ _ => Returned client).

(** A platform whose project list holds a record without an id. *)
Definition mixed_client : LabelStudio :=
  {| projects_list := fun _ =>
       Returned (mkPager [Sample.demo_project; nameless_project; Sample.bare_project]
                   None);
     projects_get := projects_get client;
     projects_create := projects_create client;
     projects_update := projects_update client;
     projects_import_tasks := projects_import_tasks client;
     tasks_list := tasks_list client;
     tasks_get := tasks_get client;
     predictions_create := predictions_create client |}.

Definition mixed : mcp_env :=
  load_mcp_env Sample.environ_with_key (fun _ _ => Returned mixed_client).

(** A file system with a directory at [inbox] and a file [latin.json]
    that is not UTF-8; the other files are those of the sample. *)
Definition rt : runtime :=
  {| open_file := fun path =>
       if String.eqb path "inbox" then
         Raised (mkExn OSError "[Errno 21] Is a directory: 'inbox'")
       else if String.eqb path "latin.json" then Returned "latin"
       else open_file Sample.rt path;
     json_load := fun text =>
       if String.eqb text "latin" then
         Raised (mkExn UnicodeDecodeError
                   "'utf-8' codec can't decode byte 0xe9 in position 0")
       else json_load Sample.rt text;
     format_exc := format_exc Sample.rt;
     repr_container := repr_container Sample.rt |}.

(** A platform whose import call returns nothing. *)
Definition terse_client : LabelStudio :=
  {| projects_list := projects_list client;
     projects_get := projects_get client;
     projects_create := projects_create client;
     projects_update := projects_update client;
     projects_import_tasks := fun _ => Returned (Val VNone);
     tasks_list := tasks_list client;
     tasks_get := tasks_get client;
     predictions_create := predictions_create client |}.

Definition terse : mcp_env :=
  load_mcp_env Sample.environ_with_key (fun _ _ => Returned terse_client).

End Outage.

(** An annotation whose accessor, the one the tool would use, returns. *)
Definition accessors_return (anno : thing) : Prop :=
  match anno with
  | Obj o =>
      match obj_model_dump o, obj_dict o with
      | Some model_dump, _ => exists d, model_dump [] = Returned d
      | None, Some dict_ => exists d, dict_ = Returned d
      | None, None => True
      end
  | Val _ => True
  end.

(** The element an annotation contributes to the answer: its full dump,
    else its plain dict, else itself when it is a dict, else its text
    under [details]. *)
Definition serialized_as (rt : runtime) (anno : thing) (out : value) : Prop :=
  match anno with
  | Obj o =>
      match obj_model_dump o, obj_dict o with
      | Some model_dump, _ => exists d, model_dump [] = Returned d /\ out = VDict d
      | None, Some dict_ => exists d, dict_ = Returned d /\ out = VDict d
      | None, None => out = VDict [("details", VStr (obj_str o))]
      end
  | Val (VDict d) => out = VDict d
  | Val v => out = VDict [("details", VStr (py_str rt v))]
  end.

(** A computation that adds nothing to the log. *)
Definition quiet {A} (m : M A) : Prop := forall tr, snd (m tr) = tr.

(** The ways a tasks file is unusable, each with the message the
    import tool answers. *)
Inductive unusable_tasks_file (rt : runtime) (path : string) : string -> Prop :=
| file_missing e :
    open_file rt path = Raised e ->
    exn_cls e = FileNotFoundError ->
    unusable_tasks_file rt path
      ("Error: Tasks file not found at path: " ++ path)
| file_denied e :
    open_file rt path = Raised e ->
    exn_cls e = PermissionError ->
    unusable_tasks_file rt path
      ("Error: Permission denied when trying to read file: " ++ path)
| file_malformed text e :
    open_file rt path = Returned text ->
    json_load rt text = Raised e ->
    exn_cls e = JSONDecodeError ->
    unusable_tasks_file rt path
      ("Error: Invalid JSON format in file '" ++ path ++ "' - " ++ exn_msg e)
| file_not_array text v :
    open_file rt path = Returned text ->
    json_load rt text = Returned v ->
    (forall items, v <> VList items) ->
    unusable_tasks_file rt path
      ("Error processing tasks file: JSON file '" ++ path
       ++ "' must contain a valid JSON array (list).").

(** A pager that a loop capped at [cap] items gets through: it ends
    without error, or it holds more than [cap] items. *)
Definition gets_through {A} (cap : nat) (pg : pager A) : Prop :=
  pager_end pg = None \/ (cap < length (pager_items pg))%nat.

(** A project the listing can summarise: it has an [id], and the three
    summary fields are JSON values. *)
Definition listable_project (project : object) : bool :=
  match dict_get "id" (obj_attrs project) with
  | Some id =>
      json_serializable id
      && json_serializable (getattr_default project "title" (VStr "N/A"))
      && json_serializable (getattr_default project "task_number" (VInt 0))
  | None => false
  end.

(** A task the listing can summarise: it has an [id] that is a JSON value. *)
Definition listable_task (t : task) : bool :=
  match dict_get "id" (obj_attrs (task_obj t)) with
  | Some id => json_serializable id
  | None => false
  end.

(** The summary entry of a project, as the loop builds it. *)
Definition project_entry (project : object) : value :=
  VDict [ ("id", getattr_default project "id" VNone);
          ("title", getattr_default project "title" (VStr "N/A"));
          ("task_count", getattr_default project "task_number" (VInt 0)) ].

(** The summary entry of a task. *)
Definition task_entry (t : task) : value :=
  VDict [ ("id", getattr_default (task_obj t) "id" VNone);
          ("data_keys", Func.data_keys t) ].

(** A computation whose value, when it returns one, is a [str]. *)
Definition returns_str (m : M value) : Prop :=
  forall tr,
    match fst (m tr) with
    | Returned v => exists s, v = VStr s
    | Raised _ => True
    end.

(** * Properties *)

(** ** The pieces on small inputs *)

Example str_of_int_negative : str_of_int (-12) = "-12".
Proof. reflexivity. Qed.

Example json_dumps_flat_list :
  json_dumps (VList [VInt 1; VNone; VBool true; VFloat "0.5"; VList []; VDict []])
  = Returned "[1, null, true, 0.5, [], {}]".
Proof. reflexivity. Qed.

Example json_dumps_rejects_datetime :
  json_dumps (VDict [("when", VDatetime "2024-05-01T12:00:00")])
  = Raised (mkExn TypeError "Object of type datetime is not JSON serializable").
Proof. reflexivity. Qed.

Example json_escape_controls :
  json_escape (String "009"%char (String "127"%char (String "233"%char "a\b")))
  = "\t\u007f\u00e9a\\b".
Proof. reflexivity. Qed.

Example json_datetime_serializer_iso :
  json_datetime_serializer (VDatetime "2024-05-01T12:00:00")
  = Returned (VStr "2024-05-01T12:00:00").
Proof. reflexivity. Qed.

Example json_decode_error_is_value_error :
  isinstance_exn (mkExn JSONDecodeError "Expecting value") ValueError = true.
Proof. reflexivity. Qed.

(** A decoding failure while reading the file is a [ValueError] and
    takes that clause. *)
Example undecodable_file_message :
  Func.tasks_file_error Sample.rt "tasks.json"
    (mkExn UnicodeDecodeError "'utf-8' codec can't decode byte 0xff")
  = "Error processing tasks file: 'utf-8' codec can't decode byte 0xff".
Proof. reflexivity. Qed.

Example dict_set_overwrites_in_place :
  dict_set "b" (VInt 9) [("a", VInt 1); ("b", VInt 2); ("c", VInt 3)]
  = [("a", VInt 1); ("b", VInt 9); ("c", VInt 3)].
Proof. reflexivity. Qed.

Example annotations_of_the_sample_task :
  snd (run (get_label_studio_task_annotations_tool Sample.rt Sample.connected 7 1))
  = [RemoteCall "tasks.get" [("id", VInt 1)]; RemoteCall "task.get_annotations" []].
Proof. reflexivity. Qed.

Example update_on_the_sample_platform :
  snd (run (update_label_studio_project_config_tool Sample.rt Sample.connected 7 "<View/>"))
  = [RemoteCall "projects.update" [("id", VInt 7); ("label_config", VStr "<View/>")]].
Proof. reflexivity. Qed.

(** ** The connection context *)

Lemma load_mcp_env_without_key environ connect :
  environ "LABEL_STUDIO_API_KEY" = None ->
  ls (load_mcp_env environ connect) = None.
Proof.
  intros Hkey. unfold load_mcp_env, getenv. now rewrite Hkey.
Qed.

Lemma load_mcp_env_empty_key environ connect :
  environ "LABEL_STUDIO_API_KEY" = Some EmptyString ->
  ls (load_mcp_env environ connect) = None.
Proof.
  intros Hkey. unfold load_mcp_env, getenv. now rewrite Hkey.
Qed.

Lemma load_mcp_env_failed_connect environ connect :
  (forall url key, exists e, connect url key = Raised e) ->
  ls (load_mcp_env environ connect) = None.
Proof.
  intros Hfail. unfold load_mcp_env, getenv; simpl.
  destruct (environ "LABEL_STUDIO_API_KEY") as [k|]; [|reflexivity].
  destruct (negb (String.eqb k EmptyString)); [|reflexivity].
  match goal with |- context [connect ?url k] => destruct (Hfail url k) as [e He] end.
  now rewrite He.
Qed.

Lemma load_mcp_env_default_url environ connect :
  environ "LABEL_STUDIO_URL" = None ->
  LABEL_STUDIO_URL (load_mcp_env environ connect) = "http://localhost:8080".
Proof.
  intros Hurl. unfold load_mcp_env, getenv. now rewrite Hurl.
Qed.

(** ** The guard *)

Lemma invoke_guarded rt env c :
  invoke rt env c = require_ls_connection env (tool_name c) (tool_func rt env c).
Proof. destruct c; reflexivity. Qed.

Lemma guard_unset env name call tr :
  ls env = None ->
  require_ls_connection env name call tr = (Returned (VStr client_not_available), tr).
Proof. intros Hls. unfold require_ls_connection. now rewrite Hls. Qed.

Lemma guard_returned env client name call tr v tr' :
  ls env = Some client ->
  call tr = (Returned v, tr') ->
  require_ls_connection env name call tr = (Returned v, tr').
Proof. intros Hls Hcall. unfold require_ls_connection. now rewrite Hls, Hcall. Qed.

Lemma guard_raised env client name call tr e tr' :
  ls env = Some client ->
  call tr = (Raised e, tr') ->
  require_ls_connection env name call tr
  = (Returned (VStr (error_in_function name e)), tr').
Proof. intros Hls Hcall. unfold require_ls_connection. now rewrite Hls, Hcall. Qed.

(** The guard leaves the log of the wrapped call as it is. *)
Lemma guard_trace env client name call tr :
  ls env = Some client ->
  snd (require_ls_connection env name call tr) = snd (call tr).
Proof.
  intros Hls. unfold require_ls_connection. rewrite Hls.
  now destruct (call tr) as [[v|e] tr'].
Qed.

(** C2. With the connection handle unset, each of the ten tools, on any
    arguments, returns the fixed "client not available" string and adds
    nothing to the log; the guard does so for any wrapped function
    whatever, which therefore is not run. *)
Theorem unset_handle_returns_sentinel rt env :
  ls env = None ->
  (forall (c : tool_call) (tr : trace),
      invoke rt env c tr
      = (Returned
           (VStr "Error: Label Studio client not available. Please check server logs for initialization errors (e.g., missing 'LABEL_STUDIO_API_KEY', invalid key, or connection issue with 'LABEL_STUDIO_URL')."),
         tr))
  /\ (forall (name : string) (call : M value) (tr : trace),
         require_ls_connection env name call tr
         = (Returned
              (VStr "Error: Label Studio client not available. Please check server logs for initialization errors (e.g., missing 'LABEL_STUDIO_API_KEY', invalid key, or connection issue with 'LABEL_STUDIO_URL')."),
            tr)).
Proof.
  intros Hls. split.
  - intros c tr. rewrite invoke_guarded. now apply guard_unset.
  - intros name call tr. now apply guard_unset.
Qed.

Lemma unset_handle_returns_sentinel_witness :
  run (invoke Sample.rt Sample.disconnected (ImportProjectTasks 7 "tasks.json"))
  = (Returned (VStr client_not_available), []).
Proof.
  exact (proj1 (unset_handle_returns_sentinel Sample.rt Sample.disconnected eq_refl)
           (ImportProjectTasks 7 "tasks.json") []).
Defined.

(** C3. A tool invocation always returns a value to the host, never an
    exception; with a connection, when the function behind the tool
    raises [e], the value is the string
    [Error in function '<name>': [<type of e>] <message of e>]. *)
Theorem guard_never_raises rt env (c : tool_call) (tr : trace) :
  (exists v tr', invoke rt env c tr = (Returned v, tr'))
  /\ (forall client e tr',
         ls env = Some client ->
         tool_func rt env c tr = (Raised e, tr') ->
         invoke rt env c tr
         = (Returned
              (VStr ("Error in function '" ++ tool_name c ++ "': ["
                     ++ class_name (exn_cls e) ++ "] " ++ exn_msg e)),
            tr')).
Proof.
  rewrite invoke_guarded. split.
  - unfold require_ls_connection.
    destruct (ls env) as [client|]; [|eauto].
    destruct (tool_func rt env c tr) as [[v|e] tr']; eauto.
  - intros client e tr' Hls Hraise.
    now rewrite (guard_raised _ _ _ _ _ _ _ Hls Hraise).
Qed.

Lemma guard_never_raises_witness :
  run (invoke Sample.rt Sample.connected (GetProjectDetails 9))
  = (Returned
       (VStr "Error in function 'get_label_studio_project_details_tool': [ApiError] status_code: 404"),
     [RemoteCall "projects.get" [("id", VInt 9)]]).
Proof.
  exact (proj2 (guard_never_raises Sample.rt Sample.connected (GetProjectDetails 9) [])
           Sample.client Sample.not_found
           [RemoteCall "projects.get" [("id", VInt 9)]] eq_refl eq_refl).
Defined.

(** ** Logs *)

Lemma quiet_ret {A} (a : A) : quiet (ret a).
Proof. now intros tr. Qed.

Lemma quiet_raise {A} (e : exn) : quiet (@raise A e).
Proof. now intros tr. Qed.

Lemma quiet_lift {A} (o : outcome A) : quiet (lift o).
Proof. now intros tr. Qed.

Lemma quiet_bind {A B} (m : M A) (k : A -> M B) :
  quiet m -> (forall a, quiet (k a)) -> quiet (bind m k).
Proof.
  intros Hm Hk tr. unfold bind. specialize (Hm tr).
  destruct (m tr) as [[a|e] tr']; simpl in *; subst; [apply Hk | reflexivity].
Qed.

Lemma quiet_return_json v : quiet (Func.return_json v).
Proof. apply quiet_bind; intros; [apply quiet_lift | apply quiet_ret]. Qed.

Create HintDb quiet.
#[local] Hint Resolve quiet_ret quiet_raise quiet_lift quiet_return_json : quiet.

(** After a first step, a quiet continuation leaves the log alone. *)
Lemma bind_quiet_trace {A B} (m : M A) (k : A -> M B) tr :
  (forall a, quiet (k a)) -> snd (bind m k tr) = snd (m tr).
Proof.
  intros Hk. unfold bind.
  destruct (m tr) as [[a|e] tr']; simpl; [apply Hk | reflexivity].
Qed.

Lemma try_except_quiet_trace {A} (body : M A) (handler : exn -> M A) tr :
  (forall e, quiet (handler e)) -> snd (try_except body handler tr) = snd (body tr).
Proof.
  intros Hh. unfold try_except.
  destruct (body tr) as [[a|e] tr']; simpl; [reflexivity | apply Hh].
Qed.

(** A remote call through a set handle: logged, then answered. *)
Lemma remote_connected {A} env client group method
    (call : LabelStudio -> dict -> outcome A) kwargs tr :
  ls env = Some client ->
  Func.remote env group method call kwargs tr
  = (call client kwargs, (tr ++ [RemoteCall (group ++ "." ++ method) kwargs])%list).
Proof. intros Hls. unfold Func.remote. now rewrite Hls. Qed.

(** ** Forwarded keyword arguments *)

(** C1 (as the code has it). With only [title] and [label_config]
    supplied, [create_project] makes one remote create call whose
    keyword arguments are [title], [label_config] and the four boolean
    options at their declared defaults; [description],
    [expert_instruction] and [color] are not sent. *)
Theorem create_project_forwards_defaults rt env client title label_config tr :
  ls env = Some client ->
  snd (create_label_studio_project_tool rt env title label_config
         Omitted Omitted Omitted Omitted Omitted Omitted Omitted tr)
  = (tr ++ [RemoteCall "projects.create"
              [ ("title", VStr title);
                ("label_config", VStr label_config);
                ("show_instruction", VBool false);
                ("show_skip_button", VBool true);
                ("enable_empty_annotation", VBool true);
                ("show_annotation_history", VBool false) ]])%list.
Proof.
  intros Hls. unfold create_label_studio_project_tool.
  rewrite (guard_trace _ _ _ _ _ Hls).
  unfold Func.create_label_studio_project_tool.
  rewrite bind_quiet_trace by
    (intros project; repeat (apply quiet_bind; [auto with quiet | intros]);
     auto with quiet).
  rewrite (remote_connected _ _ _ _ _ _ _ Hls). reflexivity.
Qed.

Lemma create_project_forwards_defaults_witness :
  snd (run (create_label_studio_project_tool Sample.rt Sample.connected
              "Demo" "<View/>"
              Omitted Omitted Omitted Omitted Omitted Omitted Omitted))
  = [RemoteCall "projects.create"
       [ ("title", VStr "Demo");
         ("label_config", VStr "<View/>");
         ("show_instruction", VBool false);
         ("show_skip_button", VBool true);
         ("enable_empty_annotation", VBool true);
         ("show_annotation_history", VBool false) ]].
Proof.
  exact (create_project_forwards_defaults Sample.rt Sample.connected
           Sample.client "Demo" "<View/>" [] eq_refl).
Defined.

(** C1 as stated fails: on the sample platform a call with only the two
    required arguments forwards more keys than [title] and
    [label_config]; [show_instruction] is among them. *)
Lemma create_project_forwards_more_than_required :
  let sent :=
    sent_to "projects.create"
      (snd (run (create_label_studio_project_tool Sample.rt Sample.connected
                   "Demo" "<View/>"
                   Omitted Omitted Omitted Omitted Omitted Omitted Omitted))) in
  map dict_keys sent <> [["title"; "label_config"]]
  /\ map (dict_get "show_instruction") sent = [Some (VBool false)].
Proof.
  split; [vm_compute; discriminate | reflexivity].
Qed.

(** C6. With [model_version] and [score] left unset, [create_prediction]
    makes one remote create call whose keyword arguments are exactly
    [task], the task id, and [result], the given list (empty or not). *)
Theorem create_prediction_forwards_task_and_result rt env client task_id result tr :
  ls env = Some client ->
  snd (create_label_studio_prediction_tool rt env task_id result Omitted Omitted tr)
  = (tr ++ [RemoteCall "predictions.create"
              [ ("task", VInt task_id);
                ("result", VList (map VDict result)) ]])%list.
Proof.
  intros Hls. unfold create_label_studio_prediction_tool.
  rewrite (guard_trace _ _ _ _ _ Hls).
  unfold Func.create_label_studio_prediction_tool.
  rewrite try_except_quiet_trace by (intros; auto with quiet).
  rewrite bind_quiet_trace by (intros; auto with quiet).
  rewrite (remote_connected _ _ _ _ _ _ _ Hls). reflexivity.
Qed.

Lemma create_prediction_forwards_task_and_result_witness :
  snd (run (create_label_studio_prediction_tool Sample.rt Sample.connected 1
              [[ ("from_name", VStr "label"); ("to_name", VStr "text");
                 ("type", VStr "choices");
                 ("value", VDict [("choices", VList [VStr "Positive"])]) ]]
              Omitted Omitted))
  = [RemoteCall "predictions.create"
       [ ("task", VInt 1);
         ("result",
          VList [VDict [ ("from_name", VStr "label"); ("to_name", VStr "text");
                         ("type", VStr "choices");
                         ("value", VDict [("choices", VList [VStr "Positive"])]) ]]) ]].
Proof.
  exact (create_prediction_forwards_task_and_result Sample.rt Sample.connected
           Sample.client 1 _ [] eq_refl).
Defined.

(** ** Importing tasks *)

Lemma remote_calls_app tr tr' :
  remote_calls (tr ++ tr')%list = (remote_calls tr ++ remote_calls tr')%list.
Proof. apply filter_app. Qed.

(** The [try] block on a file that opens and parses. *)
Lemma read_tasks_file_parsed rt path text v tr :
  open_file rt path = Returned text ->
  json_load rt text = Returned v ->
  Func.read_tasks_file rt path tr
  = (match v with
     | VList _ => Returned v
     | _ => Raised (mkExn ValueError
                      ("JSON file '" ++ path
                       ++ "' must contain a valid JSON array (list)."))
     end, (tr ++ [FileOpen path])%list).
Proof.
  intros Hopen Hload.
  unfold Func.read_tasks_file, bind, emit, lift. rewrite Hopen, Hload.
  now destruct v.
Qed.

Lemma read_tasks_file_unopened rt path e tr :
  open_file rt path = Raised e ->
  Func.read_tasks_file rt path tr = (Raised e, (tr ++ [FileOpen path])%list).
Proof.
  intros Hopen. unfold Func.read_tasks_file, bind, emit, lift. now rewrite Hopen.
Qed.

Lemma read_tasks_file_unparsed rt path text e tr :
  open_file rt path = Returned text ->
  json_load rt text = Raised e ->
  Func.read_tasks_file rt path tr = (Raised e, (tr ++ [FileOpen path])%list).
Proof.
  intros Hopen Hload.
  unfold Func.read_tasks_file, bind, emit, lift. now rewrite Hopen, Hload.
Qed.

(** When the [try] block raises, the tool answers with the message of
    the matching [except] clause and stops. *)
Lemma import_stops_on_file_error rt env pid path e tr tr' :
  Func.read_tasks_file rt path tr = (Raised e, tr') ->
  Func.import_label_studio_project_tasks_tool rt env pid path tr
  = (Returned (VStr (Func.tasks_file_error rt path e)), tr').
Proof.
  intros Hread.
  unfold Func.import_label_studio_project_tasks_tool, bind, try_except.
  now rewrite Hread.
Qed.

(** C5. With a connection, on a tasks file that is missing, unreadable,
    not JSON, or JSON whose root is not a list, [import_project_tasks]
    returns the descriptive message of that case; the file access is
    the only event: no remote call is made. *)
Theorem import_rejects_unusable_file rt env client project_id path message tr :
  ls env = Some client ->
  unusable_tasks_file rt path message ->
  import_label_studio_project_tasks_tool rt env project_id path tr
  = (Returned (VStr message), (tr ++ [FileOpen path])%list)
  /\ remote_calls (tr ++ [FileOpen path])%list = remote_calls tr.
Proof.
  intros Hls Hbad. split.
  - unfold import_label_studio_project_tasks_tool.
    apply (guard_returned _ _ _ _ _ _ _ Hls).
    destruct Hbad as [e Hopen Hcls | e Hopen Hcls | text e Hopen Hload Hcls
                     | text v Hopen Hload Hroot].
    + rewrite (import_stops_on_file_error _ _ _ _ _ _ _
                 (read_tasks_file_unopened _ _ _ _ Hopen)).
      unfold Func.tasks_file_error, isinstance_exn. now rewrite Hcls.
    + rewrite (import_stops_on_file_error _ _ _ _ _ _ _
                 (read_tasks_file_unopened _ _ _ _ Hopen)).
      unfold Func.tasks_file_error, isinstance_exn. now rewrite Hcls.
    + rewrite (import_stops_on_file_error _ _ _ _ _ _ _
                 (read_tasks_file_unparsed _ _ _ _ _ Hopen Hload)).
      unfold Func.tasks_file_error, isinstance_exn. now rewrite Hcls.
    + pose proof (read_tasks_file_parsed _ _ _ _ tr Hopen Hload) as Hread.
      destruct v; try (now rewrite (import_stops_on_file_error _ _ _ _ _ _ _ Hread)).
      now destruct (Hroot items).
  - rewrite remote_calls_app. simpl. apply app_nil_r.
Qed.

Lemma import_rejects_unusable_file_witness :
  run (import_label_studio_project_tasks_tool Sample.rt Sample.connected 7 "object.json")
  = (Returned
       (VStr "Error processing tasks file: JSON file 'object.json' must contain a valid JSON array (list)."),
     [FileOpen "object.json"])
  /\ remote_calls [FileOpen "object.json"] = [].
Proof.
  refine (import_rejects_unusable_file Sample.rt Sample.connected Sample.client 7
            "object.json" _ [] eq_refl
            (file_not_array Sample.rt "object.json"
               (Sample.text_of Sample.not_a_list) Sample.not_a_list
               eq_refl eq_refl _)).
  intros items; discriminate.
Defined.

Lemma dict_get_set_same k v d : dict_get k (dict_set k v d) = Some v.
Proof.
  induction d as [|[k' v'] rest IH]; simpl.
  - now rewrite String.eqb_refl.
  - destruct (String.eqb k k') eqn:Hk; simpl; now rewrite Hk.
Qed.

Lemma dict_get_set_other k k' v d :
  k <> k' -> dict_get k (dict_set k' v d) = dict_get k d.
Proof.
  intros Hne. apply String.eqb_neq in Hne.
  induction d as [|[k0 v0] rest IH]; simpl.
  - now rewrite Hne.
  - destruct (String.eqb k' k0) eqn:Hk; simpl.
    + destruct (String.eqb k k0) eqn:Hk0; [|reflexivity].
      apply String.eqb_eq in Hk, Hk0. subst.
      now rewrite String.eqb_refl in Hne.
    + now rewrite IH.
Qed.

(** C7. With a connection, on a tasks file whose content parses to a
    JSON array, [import_project_tasks] opens the file and makes exactly
    one remote call, the bulk import of that parsed list into the
    project; when that call returns a result whose dictionary form,
    with [project_url] added, is JSON-serialisable, the tool returns
    that JSON object, in which [project_url] is
    [<base_url>/projects/<project_id>/data]. *)
Theorem import_sends_parsed_list rt env client project_id path text items tr :
  ls env = Some client ->
  open_file rt path = Returned text ->
  json_load rt text = Returned (VList items) ->
  let request := [("id", VInt project_id); ("request", VList items)] in
  let project_url :=
    LABEL_STUDIO_URL env ++ "/projects/" ++ str_of_int project_id ++ "/data" in
  let result := import_label_studio_project_tasks_tool rt env project_id path tr in
  snd result = (tr ++ [FileOpen path; RemoteCall "projects.import_tasks" request])%list
  /\ (forall import_result response s,
         projects_import_tasks client request = Returned import_result ->
         Func.import_response rt import_result = Returned response ->
         json_dumps (VDict (dict_set "project_url" (VStr project_url) response))
         = Returned s ->
         fst result = Returned (VStr s)
         /\ dict_get "project_url"
              (dict_set "project_url" (VStr project_url) response)
            = Some (VStr project_url)).
Proof.
  intros Hls Hopen Hload request project_url result.
  assert (Hbody :
    Func.import_label_studio_project_tasks_tool rt env project_id path tr
    = (match projects_import_tasks client request with
      | Returned import_result =>
          match Func.import_response rt import_result with
          | Returned response =>
              match json_dumps
                      (VDict (dict_set "project_url" (VStr project_url) response))
              with
              | Returned s => Returned (VStr s)
              | Raised e => Raised e
              end
          | Raised e => Raised e
          end
      | Raised e =>
          Returned
            (VStr ("Error during Label Studio task import API call: "
                   ++ class_name (exn_cls e) ++ " - " ++ exn_msg e
                   ++ newline ++ format_exc rt e))
       end,
       (tr ++ [FileOpen path; RemoteCall "projects.import_tasks" request])%list)).
  { unfold Func.import_label_studio_project_tasks_tool.
    unfold bind at 1. unfold try_except at 1. unfold bind at 1.
    rewrite (read_tasks_file_parsed _ _ _ _ tr Hopen Hload).
    cbv beta iota. unfold ret at 1. cbv beta iota.
    unfold bind at 1. unfold try_except at 1. unfold bind at 1.
    rewrite (remote_connected _ _ _ _ _ _ _ Hls).
    rewrite <- app_assoc. simpl app. fold request. fold project_url.
    destruct (projects_import_tasks client request) as [import_result|e];
      [|reflexivity].
    cbv beta iota. unfold ret at 1. cbv beta iota.
    unfold bind at 1, lift at 1.
    destruct (Func.import_response rt import_result) as [response|e];
      [|reflexivity].
    cbv beta iota. unfold Func.return_json, bind, lift, ret.
    now destruct (json_dumps _). }
  subst result. unfold import_label_studio_project_tasks_tool.
  split.
  - now rewrite (guard_trace _ _ _ _ _ Hls), Hbody.
  - intros import_result response s Hcall Hresp Hjson.
    rewrite Hcall, Hresp, Hjson in Hbody.
    rewrite (guard_returned _ _ _ _ _ _ _ Hls Hbody).
    split; [reflexivity | apply dict_get_set_same].
Qed.

Lemma import_sends_parsed_list_witness :
  let result :=
    run (import_label_studio_project_tasks_tool Sample.rt Sample.connected 7
           "tasks.json") in
  snd result
  = [ FileOpen "tasks.json";
      RemoteCall "projects.import_tasks"
        [ ("id", VInt 7);
          ("request", VList [VDict [("data", VDict [("text", VStr "hello")])]]) ] ]
  /\ fst result
     = Returned (VStr (Sample.text_of
                         (VDict [ ("task_count", VInt 1);
                                  ("project_url",
                                   VStr "http://localhost:8080/projects/7/data") ]))).
Proof.
  pose proof (import_sends_parsed_list Sample.rt Sample.connected Sample.client 7
                "tasks.json" (Sample.text_of Sample.hello_tasks)
                [VDict [("data", VDict [("text", VStr "hello")])]] []
                eq_refl eq_refl eq_refl) as [Htrace Hresult].
  split; [exact Htrace|].
  exact (proj1 (Hresult _ _ _ eq_refl eq_refl eq_refl)).
Defined.

(** ** Single-entity reads *)

(** C9. [get_task_data] does not look at [project_id]; with a
    connection it makes one remote call, fetching the task by
    [task_id] alone, and when the task is returned the tool answers
    with the JSON encoding of its [data], or with the text of the
    empty object when the task has no [data] attribute. *)
Theorem task_data_by_task_id env client project_id task_id tr :
  ls env = Some client ->
  (forall other_project,
      get_label_studio_task_data_tool env other_project task_id tr
      = get_label_studio_task_data_tool env project_id task_id tr)
  /\ snd (get_label_studio_task_data_tool env project_id task_id tr)
     = (tr ++ [RemoteCall "tasks.get" [("id", VInt task_id)]])%list
  /\ (forall t,
         tasks_get client [("id", VInt task_id)] = Returned t ->
         (forall data s,
             getattr (task_obj t) "data" = Returned data ->
             json_dumps data = Returned s ->
             fst (get_label_studio_task_data_tool env project_id task_id tr)
             = Returned (VStr s))
         /\ (hasattr (task_obj t) "data" = false ->
             fst (get_label_studio_task_data_tool env project_id task_id tr)
             = Returned (VStr "{}"))).
Proof.
  intros Hls. split; [reflexivity|].
  unfold get_label_studio_task_data_tool. split.
  - rewrite (guard_trace _ _ _ _ _ Hls).
    unfold Func.get_label_studio_task_data_tool.
    rewrite bind_quiet_trace
      by (intros t; destruct (dict_get _ _); auto with quiet).
    now rewrite (remote_connected _ _ _ _ _ _ _ Hls).
  - intros t Hget.
    assert (Hbody :
      Func.get_label_studio_task_data_tool env project_id task_id tr
      = Func.return_json
          match dict_get "data" (obj_attrs (task_obj t)) with
          | Some data => data
          | None => VDict []
          end
          (tr ++ [RemoteCall "tasks.get" [("id", VInt task_id)]])%list).
    { unfold Func.get_label_studio_task_data_tool. unfold bind at 1.
      rewrite (remote_connected _ _ _ _ _ _ _ Hls), Hget.
      now destruct (dict_get _ _). }
    unfold require_ls_connection. rewrite Hls, Hbody.
    unfold getattr, hasattr. split.
    + intros data s Hdata Hjson.
      destruct (dict_get "data" _) as [d|]; [|discriminate].
      injection Hdata as ->.
      unfold Func.return_json, bind, lift. now rewrite Hjson.
    + intros Hno. now destruct (dict_get "data" _).
Qed.

Lemma task_data_by_task_id_witness :
  fst (run (get_label_studio_task_data_tool Sample.connected 7 1))
  = Returned (VStr (Sample.text_of (VDict [("text", VStr "hello")])))
  /\ fst (run (get_label_studio_task_data_tool Sample.connected 7 2))
     = Returned (VStr "{}").
Proof.
  split.
  - exact (proj1 (proj2 (proj2 (task_data_by_task_id Sample.connected
                                   Sample.client 7 1 [] eq_refl))
                    Sample.hello_task eq_refl)
             (VDict [("text", VStr "hello")]) _ eq_refl eq_refl).
  - exact (proj2 (proj2 (proj2 (task_data_by_task_id Sample.connected
                                   Sample.client 7 2 [] eq_refl))
                    Sample.blank_task eq_refl)
             eq_refl).
Defined.

(** C8. With a connection, for a project that has a [model_dump]
    accessor honouring [exclude] and a [created_at] that is a datetime
    or [None], [get_project_details] returns the JSON encoding of the
    dump taken without [created_at] and [updated_at], to which
    [created_at] is added again: the key [updated_at] is absent, and
    [created_at] holds the ISO string of the project's datetime, or
    null when the project has none, so it is a string exactly when the
    project carries a datetime. *)
Theorem project_details_drop_volatile_fields
    env client project_id project model_dump dump created_at s tr :
  ls env = Some client ->
  projects_get client [("id", VInt project_id)] = Returned project ->
  obj_model_dump project = Some model_dump ->
  honours_exclude model_dump ->
  model_dump ["created_at"; "updated_at"] = Returned dump ->
  getattr project "created_at" = Returned created_at ->
  created_at = VNone \/ (exists iso, created_at = VDatetime iso) ->
  let readded :=
    match created_at with
    | VDatetime iso => VStr iso
    | _ => VNone
    end in
  let project_data := dict_set "created_at" readded dump in
  json_dumps (VDict project_data) = Returned s ->
  get_label_studio_project_details_tool env project_id tr
  = (Returned (VStr s),
     (tr ++ [RemoteCall "projects.get" [("id", VInt project_id)]])%list)
  /\ dict_get "updated_at" project_data = None
  /\ dict_get "created_at" project_data = Some readded
  /\ ((exists iso, dict_get "created_at" project_data = Some (VStr iso))
      <-> (exists iso, created_at = VDatetime iso))
  /\ (forall k, k <> "created_at" -> dict_get k project_data = dict_get k dump).
Proof.
  intros Hls Hget Hacc Hexcl Hdump Hattr Hkind readded project_data Hjson.
  assert (Hiso : Func.created_at_iso project = Returned readded).
  { unfold Func.created_at_iso. rewrite Hattr.
    now destruct Hkind as [-> | [iso ->]]. }
  repeat split.
  - unfold get_label_studio_project_details_tool.
    apply (guard_returned _ _ _ _ _ _ _ Hls).
    unfold Func.get_label_studio_project_details_tool. unfold bind at 1.
    rewrite (remote_connected _ _ _ _ _ _ _ Hls), Hget. cbv beta iota.
    rewrite Hacc. unfold bind at 1, lift at 1. rewrite Hdump. cbv beta iota.
    unfold bind at 1, lift at 1. rewrite Hiso. cbv beta iota.
    fold readded. fold project_data.
    unfold Func.return_json, bind, lift, ret. now rewrite Hjson.
  - unfold project_data. rewrite dict_get_set_other by discriminate.
    apply (Hexcl _ _ _ Hdump). simpl; auto.
  - apply dict_get_set_same.
  - intros [iso Hiso']. unfold project_data in Hiso'.
    rewrite dict_get_set_same in Hiso'. injection Hiso' as Hre.
    destruct Hkind as [-> | [iso' ->]]; [discriminate | eauto].
  - intros [iso ->]. exists iso. apply dict_get_set_same.
  - intros k Hk. now apply dict_get_set_other.
Qed.

Lemma sample_dump_honours_exclude fields :
  honours_exclude (Sample.dump_fields fields).
Proof.
  intros exclude d k Hd Hin. injection Hd as <-.
  induction fields as [|[k' v'] rest IH]; simpl; [reflexivity|].
  destruct (existsb _ exclude) eqn:Hex; simpl.
  - exact IH.
  - destruct (String.eqb k k') eqn:Hk; [|exact IH].
    apply String.eqb_eq in Hk. subst k'.
    assert (existsb (String.eqb k) exclude = true) as Hyes
      by (apply existsb_exists; exists k; split; [exact Hin | apply String.eqb_refl]).
    now rewrite Hyes in Hex.
Qed.

Lemma project_details_drop_volatile_fields_witness :
  get_label_studio_project_details_tool Sample.connected 7 []
  = (Returned
       (VStr (Sample.text_of
                (VDict [ ("id", VInt 7); ("title", VStr "Demo");
                         ("label_config", VStr "<View/>");
                         ("task_number", VInt 2);
                         ("created_at", VStr "2024-05-01T12:00:00") ]))),
     [RemoteCall "projects.get" [("id", VInt 7)]]).
Proof.
  exact (proj1 (project_details_drop_volatile_fields Sample.connected
                  Sample.client 7 Sample.demo_project
                  (Sample.dump_fields Sample.demo_fields) _
                  (VDatetime "2024-05-01T12:00:00") _ []
                  eq_refl eq_refl eq_refl
                  (sample_dump_honours_exclude Sample.demo_fields)
                  eq_refl eq_refl
                  (or_intror (ex_intro _ "2024-05-01T12:00:00" eq_refl))
                  eq_refl)).
Defined.

(** ** Listings *)

Lemma traverse_total {A B} (f : A -> outcome B) (l : list A) :
  Forall (fun x => exists y, f x = Returned y) l ->
  exists ys, traverse f l = Returned ys.
Proof.
  induction 1 as [|x rest [y Hy] _ [ys Hys]]; simpl.
  - eauto.
  - rewrite Hy, Hys. eauto.
Qed.

Lemma json_dumps_list items :
  json_dumps (VList items)
  = match traverse json_dumps items with
    | Raised e => Raised e
    | Returned ss => Returned ("[" ++ String.concat ", " ss ++ "]")
    end.
Proof. reflexivity. Qed.

Lemma json_dumps_dict entries :
  json_dumps (VDict entries)
  = match
      traverse
        (fun kv =>
           match json_dumps (snd kv) with
           | Raised e => Raised e
           | Returned s => Returned (json_string (fst kv) ++ ": " ++ s)
           end)
        entries
    with
    | Raised e => Raised e
    | Returned ss => Returned ("{" ++ String.concat ", " ss ++ "}")
    end.
Proof. reflexivity. Qed.

(** [json.dumps] returns on every serialisable value. *)
Lemma json_dumps_total v :
  json_serializable v = true -> exists s, json_dumps v = Returned s.
Proof.
  induction v as [ | b | | | | items IH | entries IH | | ]
    using value_nested_ind; intros Hok;
    try (simpl in Hok; discriminate); try (simpl; eauto; fail).
  - destruct b; simpl; eauto.
  - rewrite json_dumps_list.
    destruct (traverse_total json_dumps items) as [ss Hss].
    + simpl in Hok. rewrite forallb_forall in Hok. rewrite Forall_forall in *. auto.
    + rewrite Hss. eauto.
  - rewrite json_dumps_dict.
    match goal with
    | |- context [traverse ?f entries] =>
        destruct (traverse_total f entries) as [ss Hss]
    end.
    + simpl in Hok. rewrite forallb_forall in Hok. rewrite Forall_forall in *.
      intros kv Hin. destruct (IH kv Hin (Hok kv Hin)) as [s Hs].
      rewrite Hs. eauto.
    + rewrite Hss. eauto.
Qed.

Lemma listable_project_has_id project :
  listable_project project = true -> hasattr project "id" = true.
Proof.
  unfold listable_project, hasattr. now destruct (dict_get "id" _).
Qed.

Lemma listable_project_entry project :
  listable_project project = true -> json_serializable (project_entry project) = true.
Proof.
  unfold listable_project, project_entry. intros Hok.
  cbn [json_serializable forallb snd]. unfold getattr_default at 1.
  destruct (dict_get "id" _); [|discriminate].
  apply andb_true_iff in Hok as [Hok Hcount].
  apply andb_true_iff in Hok as [Hid Htitle].
  now rewrite Hid, Htitle, Hcount.
Qed.

Lemma listable_task_has_id t :
  listable_task t = true -> hasattr (task_obj t) "id" = true.
Proof.
  unfold listable_task, hasattr. now destruct (dict_get "id" _).
Qed.

Lemma data_keys_serializable t : json_serializable (Func.data_keys t) = true.
Proof.
  unfold Func.data_keys.
  destruct (dict_get "data" _) as [[]|]; try reflexivity.
  simpl. apply forallb_forall. intros v Hin.
  apply in_map_iff in Hin. now destruct Hin as [k [<- _]].
Qed.

Lemma listable_task_entry t :
  listable_task t = true -> json_serializable (task_entry t) = true.
Proof.
  unfold listable_task, task_entry, getattr_default. intros Hok.
  cbn [json_serializable forallb snd].
  destruct (dict_get "id" _); [|discriminate].
  now rewrite Hok, data_keys_serializable.
Qed.

(** The projects loop with [room] entries left below the cap of 100:
    it adds the entries of the next [room] items. *)
Lemma projects_loop_spec items :
  forall stop projects_summary projects_processed room,
  Z.of_nat room = 100 - projects_processed ->
  stop = None \/ (room < length items)%nat ->
  Forall (fun project => hasattr project "id" = true) (firstn room items) ->
  Func.projects_loop items stop projects_summary projects_processed
  = Returned (projects_summary ++ map project_entry (firstn room items))%list.
Proof.
  induction items as [|project rest IH]; intros stop acc n room Hroom Hstop Hid.
  - rewrite firstn_nil, app_nil_r. simpl.
    destruct Hstop as [-> | Hlt]; [reflexivity | simpl in Hlt; lia].
  - simpl Func.projects_loop.
    destruct room as [|room].
    + replace (n >=? 100) with true by lia. now rewrite app_nil_r.
    + replace (n >=? 100) with false by lia.
      rewrite firstn_cons in *.
      inversion Hid as [|? ? Hhas Hrest]; subst.
      unfold hasattr in Hhas. unfold getattr.
      destruct (dict_get "id" (obj_attrs project)) as [id|] eqn:Hget;
        [|discriminate].
      rewrite (IH _ _ _ room); [| lia | | exact Hrest].
      * rewrite <- app_assoc. cbn [app map]. do 3 f_equal.
        unfold project_entry, getattr_default. now rewrite Hget.
      * destruct Hstop as [-> | Hlt]; [now left | right; simpl in Hlt; lia].
Qed.

Lemma tasks_loop_spec items :
  forall stop task_list_summary tasks_processed room,
  Z.of_nat room = 50 - tasks_processed ->
  stop = None \/ (room < length items)%nat ->
  Forall (fun t => hasattr (task_obj t) "id" = true) (firstn room items) ->
  Func.tasks_loop items stop task_list_summary tasks_processed
  = Returned (task_list_summary ++ map task_entry (firstn room items))%list.
Proof.
  induction items as [|t rest IH]; intros stop acc n room Hroom Hstop Hid.
  - rewrite firstn_nil, app_nil_r. simpl.
    destruct Hstop as [-> | Hlt]; [reflexivity | simpl in Hlt; lia].
  - simpl Func.tasks_loop.
    destruct room as [|room].
    + replace (n >=? 50) with true by lia. now rewrite app_nil_r.
    + replace (n >=? 50) with false by lia.
      rewrite firstn_cons in *.
      inversion Hid as [|? ? Hhas Hrest]; subst.
      unfold hasattr in Hhas. unfold getattr.
      destruct (dict_get "id" (obj_attrs (task_obj t))) as [id|] eqn:Hget;
        [|discriminate].
      rewrite (IH _ _ _ room); [| lia | | exact Hrest].
      * rewrite <- app_assoc. cbn [app map]. do 3 f_equal.
        unfold task_entry, getattr_default. now rewrite Hget.
      * destruct Hstop as [-> | Hlt]; [now left | right; simpl in Hlt; lia].
Qed.

(** What [list_projects] returns on a pager it gets through. *)
Lemma list_projects_returns env client projects_pager tr :
  ls env = Some client ->
  projects_list client [] = Returned projects_pager ->
  gets_through 100 projects_pager ->
  Forall (fun project => listable_project project = true)
    (firstn 100 (pager_items projects_pager)) ->
  exists s,
    json_dumps (VList (map project_entry (firstn 100 (pager_items projects_pager))))
    = Returned s
    /\ get_label_studio_projects_tool env tr
       = (Returned (VStr s), (tr ++ [RemoteCall "projects.list" []])%list).
Proof.
  intros Hls Hlist Hthrough Hok.
  destruct (json_dumps_total
              (VList (map project_entry (firstn 100 (pager_items projects_pager)))))
    as [s Hs].
  { simpl. apply forallb_forall. intros entry Hin.
    apply in_map_iff in Hin. destruct Hin as [project [<- Hin]].
    apply listable_project_entry. rewrite Forall_forall in Hok. auto. }
  exists s. split; [exact Hs|].
  unfold get_label_studio_projects_tool.
  apply (guard_returned _ _ _ _ _ _ _ Hls).
  unfold Func.get_label_studio_projects_tool. unfold bind at 1.
  rewrite (remote_connected _ _ _ _ _ _ _ Hls), Hlist. cbv beta iota.
  unfold bind at 1, lift at 1.
  rewrite (projects_loop_spec _ _ [] 0 100); [| lia | exact Hthrough |].
  - cbv beta iota. rewrite app_nil_l.
    unfold Func.return_json, bind, lift, ret. now rewrite Hs.
  - eapply Forall_impl; [|exact Hok]. apply listable_project_has_id.
Qed.

Lemma list_tasks_returns env client project_id tasks_pager tr :
  ls env = Some client ->
  tasks_list client [("project", VInt project_id)] = Returned tasks_pager ->
  gets_through 50 tasks_pager ->
  Forall (fun t => listable_task t = true) (firstn 50 (pager_items tasks_pager)) ->
  exists s,
    json_dumps (VList (map task_entry (firstn 50 (pager_items tasks_pager))))
    = Returned s
    /\ list_label_studio_project_tasks_tool env project_id tr
       = (Returned (VStr s),
          (tr ++ [RemoteCall "tasks.list" [("project", VInt project_id)]])%list).
Proof.
  intros Hls Hlist Hthrough Hok.
  destruct (json_dumps_total
              (VList (map task_entry (firstn 50 (pager_items tasks_pager)))))
    as [s Hs].
  { simpl. apply forallb_forall. intros entry Hin.
    apply in_map_iff in Hin. destruct Hin as [t [<- Hin]].
    apply listable_task_entry. rewrite Forall_forall in Hok. auto. }
  exists s. split; [exact Hs|].
  unfold list_label_studio_project_tasks_tool.
  apply (guard_returned _ _ _ _ _ _ _ Hls).
  unfold Func.list_label_studio_project_tasks_tool. unfold bind at 1.
  rewrite (remote_connected _ _ _ _ _ _ _ Hls), Hlist. cbv beta iota.
  unfold bind at 1, lift at 1.
  rewrite (tasks_loop_spec _ _ [] 0 50); [| lia | exact Hthrough |].
  - cbv beta iota. rewrite app_nil_l.
    unfold Func.return_json, bind, lift, ret. now rewrite Hs.
  - eapply Forall_impl; [|exact Hok]. apply listable_task_has_id.
Qed.

Lemma Forall2_map_self {A B} (R : A -> B -> Prop) (f : A -> B) (l : list A) :
  (forall x, R x (f x)) -> Forall2 R l (map f l).
Proof. intros HR. induction l; simpl; constructor; auto. Qed.

Lemma in_firstn {A} (n : nat) (l : list A) (x : A) :
  In x (firstn n l) -> In x l.
Proof.
  revert l. induction n as [|n IH]; intros [|y l]; simpl; try tauto.
  intros [-> | Hin]; auto.
Qed.

(** C4. With a connection, on a remote collection of any size whose
    pager the loop gets through and whose listed items can be
    summarised, [list_projects] returns the JSON encoding of the array
    of the summaries of the first 100 items, which has as many
    elements as the collection has, but at most 100, and
    [list_project_tasks] that of the summaries of the first 50 tasks,
    at most 50. *)
Theorem listings_are_capped env client tr :
  ls env = Some client ->
  (forall projects_pager,
      projects_list client [] = Returned projects_pager ->
      gets_through 100 projects_pager ->
      Forall (fun project => listable_project project = true)
        (firstn 100 (pager_items projects_pager)) ->
      let entries := map project_entry (firstn 100 (pager_items projects_pager)) in
      exists s,
        json_dumps (VList entries) = Returned s
        /\ get_label_studio_projects_tool env tr
           = (Returned (VStr s), (tr ++ [RemoteCall "projects.list" []])%list)
        /\ length entries = Nat.min 100 (length (pager_items projects_pager))
        /\ (length entries <= 100)%nat)
  /\ (forall project_id tasks_pager,
         tasks_list client [("project", VInt project_id)] = Returned tasks_pager ->
         gets_through 50 tasks_pager ->
         Forall (fun t => listable_task t = true)
           (firstn 50 (pager_items tasks_pager)) ->
         let entries := map task_entry (firstn 50 (pager_items tasks_pager)) in
         exists s,
           json_dumps (VList entries) = Returned s
           /\ list_label_studio_project_tasks_tool env project_id tr
              = (Returned (VStr s),
                 (tr ++ [RemoteCall "tasks.list" [("project", VInt project_id)]])%list)
           /\ length entries = Nat.min 50 (length (pager_items tasks_pager))
           /\ (length entries <= 50)%nat).
Proof.
  intros Hls. split.
  - intros pg Hlist Hthrough Hok entries.
    destruct (list_projects_returns env client pg tr Hls Hlist Hthrough Hok)
      as [s [Hs Htool]].
    exists s. unfold entries. rewrite length_map, length_firstn.
    repeat split; auto using Nat.le_min_l.
  - intros project_id pg Hlist Hthrough Hok entries.
    destruct (list_tasks_returns env client project_id pg tr Hls Hlist Hthrough Hok)
      as [s [Hs Htool]].
    exists s. unfold entries. rewrite length_map, length_firstn.
    repeat split; auto using Nat.le_min_l.
Qed.

Lemma listings_are_capped_witness :
  (exists s,
      json_dumps (VList (map project_entry (repeat Sample.bare_project 100)))
      = Returned s
      /\ get_label_studio_projects_tool Sample.crowded []
         = (Returned (VStr s), [RemoteCall "projects.list" []])
      /\ length (map project_entry (repeat Sample.bare_project 100)) = 100%nat
      /\ (length (map project_entry (repeat Sample.bare_project 100)) <= 100)%nat)
  /\ (exists s,
         json_dumps (VList [ task_entry Sample.hello_task;
                             task_entry Sample.blank_task ])
         = Returned s
         /\ list_label_studio_project_tasks_tool Sample.connected 7 []
            = (Returned (VStr s), [RemoteCall "tasks.list" [("project", VInt 7)]])
         /\ length [ task_entry Sample.hello_task; task_entry Sample.blank_task ]
            = 2%nat
         /\ (length [ task_entry Sample.hello_task; task_entry Sample.blank_task ]
             <= 50)%nat).
Proof.
  split.
  - refine (proj1 (listings_are_capped Sample.crowded Sample.crowded_client []
                     eq_refl)
              (mkPager (repeat Sample.bare_project 150) (Some Sample.not_found))
              eq_refl _ _).
    + right. simpl. lia.
    + apply Forall_forall. intros project Hin.
      apply in_firstn, repeat_spec in Hin. now subst.
  - refine (proj2 (listings_are_capped Sample.connected Sample.client []
                     eq_refl)
              7 (mkPager [Sample.hello_task; Sample.blank_task] None)
              eq_refl _ _).
    + now left.
    + repeat constructor.
Defined.

(** C10. With a connection, on a pager the loop gets through whose
    listed projects can be summarised, [list_projects] returns the JSON
    encoding of the array of the summaries of the first 100 projects;
    every summary has exactly the keys [id], [title] and [task_count],
    in that order, holding the project's [id], its [title] or ['N/A']
    when it has no [title] attribute, and its [task_number] or 0 when
    it has no [task_number] attribute. *)
Theorem project_entries_default_missing_fields env client projects_pager tr :
  ls env = Some client ->
  projects_list client [] = Returned projects_pager ->
  gets_through 100 projects_pager ->
  Forall (fun project => listable_project project = true)
    (firstn 100 (pager_items projects_pager)) ->
  exists entries s,
    entries = map project_entry (firstn 100 (pager_items projects_pager))
    /\ json_dumps (VList entries) = Returned s
    /\ get_label_studio_projects_tool env tr
       = (Returned (VStr s), (tr ++ [RemoteCall "projects.list" []])%list)
    /\ Forall2
         (fun project entry =>
            exists id title task_count,
              entry = VDict [("id", id); ("title", title); ("task_count", task_count)]
              /\ getattr project "id" = Returned id
              /\ (forall v, getattr project "title" = Returned v -> title = v)
              /\ (hasattr project "title" = false -> title = VStr "N/A")
              /\ (forall v, getattr project "task_number" = Returned v ->
                            task_count = v)
              /\ (hasattr project "task_number" = false -> task_count = VInt 0))
         (firstn 100 (pager_items projects_pager)) entries.
Proof.
  intros Hls Hlist Hthrough Hok.
  destruct (list_projects_returns env client projects_pager tr Hls Hlist Hthrough Hok)
    as [s [Hs Htool]].
  exists (map project_entry (firstn 100 (pager_items projects_pager))), s.
  repeat split; auto.
  clear Hs Htool.
  induction Hok as [|project rest Hproject _ IH]; simpl; constructor; auto.
  unfold listable_project in Hproject.
  unfold project_entry, getattr_default, getattr, hasattr.
  destruct (dict_get "id" (obj_attrs project)) as [id|]; [|discriminate].
  do 3 eexists. split; [reflexivity|]. split; [reflexivity|].
  repeat split.
  - intros v Hv. destruct (dict_get "title" _); [now injection Hv | discriminate].
  - intros Hno. now destruct (dict_get "title" _).
  - intros v Hv.
    destruct (dict_get "task_number" _); [now injection Hv | discriminate].
  - intros Hno. now destruct (dict_get "task_number" _).
Qed.

Lemma project_entries_default_missing_fields_witness :
  exists s,
    json_dumps
      (VList [ VDict [("id", VInt 7); ("title", VStr "Demo"); ("task_count", VInt 2)];
               VDict [("id", VInt 8); ("title", VStr "N/A"); ("task_count", VInt 0)] ])
    = Returned s
    /\ get_label_studio_projects_tool Sample.connected []
       = (Returned (VStr s), [RemoteCall "projects.list" []]).
Proof.
  assert (Hok : Forall (fun project => listable_project project = true)
                  (firstn 100 [Sample.demo_project; Sample.bare_project]))
    by (repeat constructor).
  destruct (project_entries_default_missing_fields Sample.connected Sample.client
              (mkPager [Sample.demo_project; Sample.bare_project] None) []
              eq_refl eq_refl (or_introl eq_refl) Hok)
    as [entries [s [Hentries [Hs [Htool _]]]]].
  exists s. split; [|exact Htool].
  rewrite Hentries in Hs. exact Hs.
Defined.

(** * Further properties of the tools *)

(** ** The connection context and the guard *)

(** X1. After [mcp_env] is loaded the handle is set exactly when the
    environment holds a non-empty API key and the client constructor,
    given the module's URL and that key, returns; the URL is the
    environment's, or [http://localhost:8080] when it has none. *)
Theorem connection_handle_set_iff environ connect :
  let env := load_mcp_env environ connect in
  (forall c,
      ls env = Some c
      <-> exists key,
            environ "LABEL_STUDIO_API_KEY" = Some key
            /\ key <> EmptyString
            /\ connect (LABEL_STUDIO_URL env) key = Returned c)
  /\ LABEL_STUDIO_URL env
     = match environ "LABEL_STUDIO_URL" with
       | Some url => url
       | None => "http://localhost:8080"
       end
  /\ LABEL_STUDIO_API_KEY env = environ "LABEL_STUDIO_API_KEY".
Proof.
  cbv zeta. unfold load_mcp_env, getenv. cbn [ls LABEL_STUDIO_URL LABEL_STUDIO_API_KEY].
  split; [|split; [now destruct (environ "LABEL_STUDIO_URL")
                  | now destruct (environ "LABEL_STUDIO_API_KEY")]].
  intros c. destruct (environ "LABEL_STUDIO_API_KEY") as [key|].
  - cbn [truthy]. destruct (String.eqb_spec key EmptyString) as [->|Hne]; cbn [negb].
    + split; [discriminate|]. intros [k [Hk [Hne _]]]. now injection Hk as <-.
    + split.
      * intros Hc. exists key. repeat split; auto.
        destruct (connect _ key) as [c'|e]; [now injection Hc as -> | discriminate].
      * intros [k [Hk [_ Hc]]]. injection Hk as <-. now rewrite Hc.
  - split; [discriminate|]. now intros [k [Hk _]].
Qed.

Lemma returns_str_return_json v : returns_str (Func.return_json v).
Proof.
  intros tr. unfold Func.return_json, bind, lift, ret.
  destruct (json_dumps v); simpl; eauto.
Qed.

Lemma returns_str_ret s : returns_str (ret (VStr s)).
Proof. intros tr. simpl. eauto. Qed.

Lemma returns_str_raise e : returns_str (raise e).
Proof. now intros tr. Qed.

Lemma returns_str_bind {A} (m : M A) (k : A -> M value) :
  (forall a, returns_str (k a)) -> returns_str (bind m k).
Proof.
  intros Hk tr. unfold bind. destruct (m tr) as [[a|e] tr']; [apply Hk | exact I].
Qed.

Lemma returns_str_try_except (body : M value) (handler : exn -> M value) :
  returns_str body -> (forall e, returns_str (handler e)) ->
  returns_str (try_except body handler).
Proof.
  intros Hb Hh tr. unfold try_except. specialize (Hb tr).
  destruct (body tr) as [[v|e] tr']; [exact Hb | apply Hh].
Qed.

Create HintDb returns_str.
#[local] Hint Resolve returns_str_return_json returns_str_ret returns_str_raise
  : returns_str.

(** The guard turns a function that returns strings into a tool that
    always answers with a string. *)
Lemma guard_returns_str env name call tr :
  returns_str call ->
  exists s, fst (require_ls_connection env name call tr) = Returned (VStr s).
Proof.
  intros Hcall. unfold require_ls_connection.
  destruct (ls env); [|simpl; eauto].
  specialize (Hcall tr). destruct (call tr) as [[v|e] tr']; simpl in *.
  - destruct Hcall as [s ->]. eauto.
  - eauto.
Qed.

Ltac returns_str_step :=
  first
    [ apply returns_str_return_json
    | apply returns_str_ret
    | apply returns_str_raise
    | apply returns_str_try_except; [|intros]
    | apply returns_str_bind; intros
    | match goal with
      | |- returns_str (match ?x with _ => _ end) => destruct x
      end ].

(** X2. Every tool other than [get_project_config] answers every call
    with a string, whatever the handle, the platform and the files do. *)
Theorem tools_answer_with_strings rt env (c : tool_call) (tr : trace) :
  match c with
  | GetProjectConfig _ => True
  | _ => exists s, fst (invoke rt env c tr) = Returned (VStr s)
  end.
Proof.
  destruct c; try exact I; cbn [invoke];
    apply guard_returns_str;
    unfold Func.get_label_studio_projects_tool,
      Func.get_label_studio_project_details_tool,
      Func.list_label_studio_project_tasks_tool,
      Func.get_label_studio_task_data_tool,
      Func.get_label_studio_task_annotations_tool,
      Func.create_label_studio_project_tool,
      Func.update_label_studio_project_config_tool,
      Func.import_label_studio_project_tasks_tool,
      Func.create_label_studio_prediction_tool;
    repeat returns_str_step.
Qed.

(** X3. With a connection, [get_project_config] hands back the fetched
    project's [label_config] attribute as it is, without JSON encoding,
    after the one call that fetches the project; for a project without
    that attribute it answers with the guard's error string. *)
Theorem project_config_is_returned_verbatim env client project_id project tr :
  ls env = Some client ->
  projects_get client [("id", VInt project_id)] = Returned project ->
  get_label_studio_project_config_tool env project_id tr
  = (match dict_get "label_config" (obj_attrs project) with
     | Some label_config => Returned label_config
     | None =>
         Returned
           (VStr ("Error in function 'get_label_studio_project_config_tool': "
                  ++ "[AttributeError] '" ++ obj_class project
                  ++ "' object has no attribute 'label_config'"))
     end,
     (tr ++ [RemoteCall "projects.get" [("id", VInt project_id)]])%list).
Proof.
  intros Hls Hget. unfold get_label_studio_project_config_tool, require_ls_connection.
  rewrite Hls. unfold Func.get_label_studio_project_config_tool, bind.
  rewrite (remote_connected _ _ _ _ _ _ _ Hls), Hget.
  unfold lift, getattr. now destruct (dict_get "label_config" _).
Qed.

Lemma project_config_is_returned_verbatim_witness :
  run (get_label_studio_project_config_tool Sample.connected 7)
  = (Returned (VStr "<View/>"), [RemoteCall "projects.get" [("id", VInt 7)]]).
Proof.
  exact (project_config_is_returned_verbatim Sample.connected Sample.client 7
           Sample.demo_project [] eq_refl eq_refl).
Defined.

(** ** One remote call per tool *)

Lemma quiet_try_except {A} (body : M A) (handler : exn -> M A) :
  quiet body -> (forall e, quiet (handler e)) -> quiet (try_except body handler).
Proof.
  intros Hb Hh tr. rewrite try_except_quiet_trace by exact Hh. apply Hb.
Qed.

Ltac quiet_step :=
  first
    [ apply quiet_ret
    | apply quiet_raise
    | apply quiet_lift
    | apply quiet_return_json
    | apply quiet_bind; [|intros]
    | apply quiet_try_except; [|intros]
    | match goal with
      | |- quiet (match ?x with _ => _ end) => destruct x
      end ].

(** X4. With a connection, each of [list_projects], [get_project_details],
    [get_project_config], [list_project_tasks] and
    [update_project_config] adds exactly one event to the log, whatever
    the platform answers: its one remote call, with the project id
    (and, for the update, the new configuration) as only arguments. *)
Theorem project_tools_make_one_call rt env client project_id new_label_config tr :
  ls env = Some client ->
  snd (get_label_studio_projects_tool env tr)
  = (tr ++ [RemoteCall "projects.list" []])%list
  /\ snd (get_label_studio_project_details_tool env project_id tr)
     = (tr ++ [RemoteCall "projects.get" [("id", VInt project_id)]])%list
  /\ snd (get_label_studio_project_config_tool env project_id tr)
     = (tr ++ [RemoteCall "projects.get" [("id", VInt project_id)]])%list
  /\ snd (list_label_studio_project_tasks_tool env project_id tr)
     = (tr ++ [RemoteCall "tasks.list" [("project", VInt project_id)]])%list
  /\ snd (update_label_studio_project_config_tool rt env project_id new_label_config tr)
     = (tr ++ [RemoteCall "projects.update"
                 [("id", VInt project_id);
                  ("label_config", VStr new_label_config)]])%list.
Proof.
  intros Hls.
  unfold get_label_studio_projects_tool, get_label_studio_project_details_tool,
    get_label_studio_project_config_tool, list_label_studio_project_tasks_tool,
    update_label_studio_project_config_tool.
  rewrite !(guard_trace _ _ _ _ _ Hls).
  unfold Func.get_label_studio_projects_tool,
    Func.get_label_studio_project_details_tool,
    Func.get_label_studio_project_config_tool,
    Func.list_label_studio_project_tasks_tool,
    Func.update_label_studio_project_config_tool.
  rewrite try_except_quiet_trace by (intros; apply quiet_ret).
  rewrite !bind_quiet_trace by (intros; repeat quiet_step).
  now rewrite !(remote_connected _ _ _ _ _ _ _ Hls).
Qed.

Lemma project_tools_make_one_call_witness :
  snd (run (update_label_studio_project_config_tool Sample.rt Sample.connected 7
              "<View></View>"))
  = [RemoteCall "projects.update"
       [("id", VInt 7); ("label_config", VStr "<View></View>")]].
Proof.
  exact (proj2 (proj2 (proj2 (proj2
           (project_tools_make_one_call Sample.rt Sample.connected Sample.client 7
              "<View></View>" [] eq_refl))))).
Defined.

(** ** Listings: failures and task entries *)

(** The projects loop on a pager that fails before the cap is passed. *)
Lemma projects_loop_pager_failure items :
  forall e projects_summary projects_processed room,
  Z.of_nat room = 100 - projects_processed ->
  (length items <= room)%nat ->
  Forall (fun project => hasattr project "id" = true) items ->
  Func.projects_loop items (Some e) projects_summary projects_processed = Raised e.
Proof.
  induction items as [|project rest IH]; intros e acc n room Hroom Hlen Hid.
  - reflexivity.
  - simpl Func.projects_loop. simpl in Hlen.
    destruct room as [|room]; [lia|].
    replace (n >=? 100) with false by lia.
    inversion Hid as [|? ? Hhas Hrest]; subst.
    unfold hasattr in Hhas. unfold getattr.
    destruct (dict_get "id" (obj_attrs project)); [|discriminate].
    apply (IH _ _ _ room); [lia | lia | exact Hrest].
Qed.

Lemma tasks_loop_pager_failure items :
  forall e task_list_summary tasks_processed room,
  Z.of_nat room = 50 - tasks_processed ->
  (length items <= room)%nat ->
  Forall (fun t => hasattr (task_obj t) "id" = true) items ->
  Func.tasks_loop items (Some e) task_list_summary tasks_processed = Raised e.
Proof.
  induction items as [|t rest IH]; intros e acc n room Hroom Hlen Hid.
  - reflexivity.
  - simpl Func.tasks_loop. simpl in Hlen.
    destruct room as [|room]; [lia|].
    replace (n >=? 50) with false by lia.
    inversion Hid as [|? ? Hhas Hrest]; subst.
    unfold hasattr in Hhas. unfold getattr.
    destruct (dict_get "id" (obj_attrs (task_obj t))); [|discriminate].
    apply (IH _ _ _ room); [lia | lia | exact Hrest].
Qed.

(** X5. With a connection, when the pager fails after yielding no more
    items than the cap (100 projects, 50 tasks; a collection of exactly
    the cap included, since the loop asks for one more item before it
    tests the cap), the listing tool answers with the guard's error
    string for that failure: the entries gathered so far are dropped. *)
Theorem pager_failure_discards_listing env client e tr :
  ls env = Some client ->
  (forall projects_pager,
      projects_list client [] = Returned projects_pager ->
      pager_end projects_pager = Some e ->
      (length (pager_items projects_pager) <= 100)%nat ->
      Forall (fun project => hasattr project "id" = true)
        (pager_items projects_pager) ->
      get_label_studio_projects_tool env tr
      = (Returned
           (VStr ("Error in function 'get_label_studio_projects_tool': ["
                  ++ class_name (exn_cls e) ++ "] " ++ exn_msg e)),
         (tr ++ [RemoteCall "projects.list" []])%list))
  /\ (forall project_id tasks_pager,
         tasks_list client [("project", VInt project_id)] = Returned tasks_pager ->
         pager_end tasks_pager = Some e ->
         (length (pager_items tasks_pager) <= 50)%nat ->
         Forall (fun t => hasattr (task_obj t) "id" = true)
           (pager_items tasks_pager) ->
         list_label_studio_project_tasks_tool env project_id tr
         = (Returned
              (VStr ("Error in function 'list_label_studio_project_tasks_tool': ["
                     ++ class_name (exn_cls e) ++ "] " ++ exn_msg e)),
            (tr ++ [RemoteCall "tasks.list" [("project", VInt project_id)]])%list)).
Proof.
  intros Hls. split.
  - intros pg Hlist Hend Hlen Hid.
    unfold get_label_studio_projects_tool.
    erewrite (guard_raised _ _ _ _ _ e _ Hls); [reflexivity|].
    unfold Func.get_label_studio_projects_tool. unfold bind at 1.
    rewrite (remote_connected _ _ _ _ _ _ _ Hls), Hlist. cbv beta iota.
    unfold bind at 1, lift at 1. rewrite Hend.
    now rewrite (projects_loop_pager_failure _ e [] 0 100) by (lia || assumption).
  - intros project_id pg Hlist Hend Hlen Hid.
    unfold list_label_studio_project_tasks_tool.
    erewrite (guard_raised _ _ _ _ _ e _ Hls); [reflexivity|].
    unfold Func.list_label_studio_project_tasks_tool. unfold bind at 1.
    rewrite (remote_connected _ _ _ _ _ _ _ Hls), Hlist. cbv beta iota.
    unfold bind at 1, lift at 1. rewrite Hend.
    now rewrite (tasks_loop_pager_failure _ e [] 0 50) by (lia || assumption).
Qed.

Lemma pager_failure_discards_listing_witness :
  run (get_label_studio_projects_tool Outage.env)
  = (Returned
       (VStr "Error in function 'get_label_studio_projects_tool': [ReadTimeout] timed out"),
     [RemoteCall "projects.list" []])
  /\ run (list_label_studio_project_tasks_tool Outage.env 7)
     = (Returned
          (VStr "Error in function 'list_label_studio_project_tasks_tool': [ReadTimeout] timed out"),
        [RemoteCall "tasks.list" [("project", VInt 7)]]).
Proof.
  split.
  - refine (proj1 (pager_failure_discards_listing Outage.env Outage.client
                     Outage.timeout [] eq_refl)
              (mkPager (repeat Sample.bare_project 100) (Some Outage.timeout))
              eq_refl eq_refl _ _).
    + cbn [pager_items]. rewrite repeat_length. lia.
    + cbn [pager_items]. apply Forall_forall. intros project Hin.
      apply repeat_spec in Hin. now subst.
  - refine (proj2 (pager_failure_discards_listing Outage.env Outage.client
                     Outage.timeout [] eq_refl)
              7 (mkPager [Sample.hello_task] (Some Outage.timeout))
              eq_refl eq_refl _ _).
    + simpl. lia.
    + repeat constructor.
Defined.

(** The projects loop reaching an item without [id] below the cap. *)
Lemma projects_loop_missing_id before :
  forall project after stop projects_summary projects_processed room,
  Z.of_nat room = 100 - projects_processed ->
  (length before < room)%nat ->
  Forall (fun p => hasattr p "id" = true) before ->
  hasattr project "id" = false ->
  Func.projects_loop (before ++ project :: after)%list stop projects_summary
    projects_processed
  = Raised (no_attribute (obj_class project) "id").
Proof.
  induction before as [|p rest IH];
    intros project after stop acc n room Hroom Hlen Hid Hno.
  - simpl app. simpl Func.projects_loop. simpl in Hlen.
    replace (n >=? 100) with false by lia.
    unfold hasattr in Hno. unfold getattr.
    now destruct (dict_get "id" (obj_attrs project)).
  - simpl app. simpl Func.projects_loop. simpl in Hlen.
    destruct room as [|room]; [lia|].
    replace (n >=? 100) with false by lia.
    inversion Hid as [|? ? Hhas Hrest]; subst.
    unfold hasattr in Hhas. unfold getattr.
    destruct (dict_get "id" (obj_attrs p)); [|discriminate].
    apply (IH _ _ _ _ _ room); [lia | lia | exact Hrest | exact Hno].
Qed.

(** X6. With a connection, when one of the first 100 projects of the
    collection has no [id] attribute (those before it have one),
    [list_projects] answers with the guard's error string for the
    [AttributeError] on [id]; no partial listing is returned. *)
Theorem project_without_id_aborts_listing
    env client projects_pager before project after tr :
  ls env = Some client ->
  projects_list client [] = Returned projects_pager ->
  pager_items projects_pager = (before ++ project :: after)%list ->
  (length before < 100)%nat ->
  Forall (fun p => hasattr p "id" = true) before ->
  hasattr project "id" = false ->
  get_label_studio_projects_tool env tr
  = (Returned
       (VStr ("Error in function 'get_label_studio_projects_tool': "
              ++ "[AttributeError] '" ++ obj_class project
              ++ "' object has no attribute 'id'")),
     (tr ++ [RemoteCall "projects.list" []])%list).
Proof.
  intros Hls Hlist Hitems Hlen Hid Hno.
  unfold get_label_studio_projects_tool.
  erewrite (guard_raised _ _ _ _ _ (no_attribute (obj_class project) "id") _ Hls);
    [reflexivity|].
  unfold Func.get_label_studio_projects_tool. unfold bind at 1.
  rewrite (remote_connected _ _ _ _ _ _ _ Hls), Hlist. cbv beta iota.
  unfold bind at 1, lift at 1. rewrite Hitems.
  now rewrite (projects_loop_missing_id before project after _ [] 0 100)
    by (lia || assumption).
Qed.

Lemma project_without_id_aborts_listing_witness :
  run (get_label_studio_projects_tool Outage.mixed)
  = (Returned
       (VStr "Error in function 'get_label_studio_projects_tool': [AttributeError] 'Project' object has no attribute 'id'"),
     [RemoteCall "projects.list" []]).
Proof.
  refine (project_without_id_aborts_listing Outage.mixed Outage.mixed_client
            (mkPager [Sample.demo_project; Outage.nameless_project;
                      Sample.bare_project] None)
            [Sample.demo_project] Outage.nameless_project [Sample.bare_project] []
            eq_refl eq_refl eq_refl _ _ eq_refl).
  - simpl. lia.
  - repeat constructor.
Defined.

(** X7. With a connection, on a pager the loop gets through whose
    listed tasks have a JSON-serialisable [id], every element
    [list_project_tasks] returns has exactly the keys [id] and
    [data_keys]; [data_keys] lists the keys of the task's [data] in
    their order when [data] is a dict, and is empty when the task has
    no [data] or [data] is not a dict. *)
Theorem task_entries_list_data_keys env client project_id tasks_pager tr :
  ls env = Some client ->
  tasks_list client [("project", VInt project_id)] = Returned tasks_pager ->
  gets_through 50 tasks_pager ->
  Forall (fun t => listable_task t = true) (firstn 50 (pager_items tasks_pager)) ->
  exists entries s,
    list_label_studio_project_tasks_tool env project_id tr
    = (Returned (VStr s),
       (tr ++ [RemoteCall "tasks.list" [("project", VInt project_id)]])%list)
    /\ json_dumps (VList entries) = Returned s
    /\ Forall2
         (fun t entry =>
            exists d,
              entry = VDict d
              /\ dict_keys d = ["id"; "data_keys"]
              /\ dict_get "id" d = dict_get "id" (obj_attrs (task_obj t))
              /\ (forall data,
                     dict_get "data" (obj_attrs (task_obj t)) = Some (VDict data) ->
                     dict_get "data_keys" d
                     = Some (VList (map VStr (dict_keys data))))
              /\ ((forall data,
                      dict_get "data" (obj_attrs (task_obj t)) <> Some (VDict data)) ->
                  dict_get "data_keys" d = Some (VList [])))
         (firstn 50 (pager_items tasks_pager)) entries.
Proof.
  intros Hls Hlist Hthrough Hok.
  destruct (list_tasks_returns env client project_id tasks_pager tr
              Hls Hlist Hthrough Hok) as [s [Hs Htool]].
  exists (map task_entry (firstn 50 (pager_items tasks_pager))), s.
  repeat split; auto.
  rewrite Forall_forall in Hok.
  assert (Hall : Forall (fun t => listable_task t = true)
                   (firstn 50 (pager_items tasks_pager)))
    by now apply Forall_forall.
  clear Hs Htool Hok. induction Hall as [|t rest Ht _ IH]; simpl; constructor; auto.
  unfold listable_task in Ht.
  eexists. split; [reflexivity|]. split; [reflexivity|].
  change (dict_get "id" [("id", getattr_default (task_obj t) "id" VNone);
                         ("data_keys", Func.data_keys t)])
    with (Some (getattr_default (task_obj t) "id" VNone)).
  change (dict_get "data_keys" [("id", getattr_default (task_obj t) "id" VNone);
                                ("data_keys", Func.data_keys t)])
    with (Some (Func.data_keys t)).
  unfold getattr_default, Func.data_keys.
  destruct (dict_get "id" (obj_attrs (task_obj t))); [|discriminate].
  split; [reflexivity|]. split.
  - intros data ->. reflexivity.
  - intros Hnot. destruct (dict_get "data" _) as [[]|]; try reflexivity.
    now destruct (Hnot entries).
Qed.

Lemma task_entries_list_data_keys_witness :
  exists s,
    run (list_label_studio_project_tasks_tool Sample.connected 7)
    = (Returned (VStr s), [RemoteCall "tasks.list" [("project", VInt 7)]]).
Proof.
  assert (Hok : Forall (fun t => listable_task t = true)
                  (firstn 50 [Sample.hello_task; Sample.blank_task]))
    by (repeat constructor).
  destruct (task_entries_list_data_keys Sample.connected Sample.client 7
              (mkPager [Sample.hello_task; Sample.blank_task] None) []
              eq_refl eq_refl (or_introl eq_refl) Hok)
    as [entries [s [Htool _]]].
  exists s. exact Htool.
Defined.

(** ** Project details: the other accessors *)

Lemma dict_get_pop_same k d : dict_get k (dict_pop k d) = None.
Proof.
  induction d as [|[k' v'] rest IH]; simpl; [reflexivity|].
  destruct (String.eqb k k') eqn:Hk; [exact IH|]. simpl. now rewrite Hk.
Qed.

Lemma dict_get_pop_other k k' d :
  k <> k' -> dict_get k (dict_pop k' d) = dict_get k d.
Proof.
  intros Hne. induction d as [|[k0 v0] rest IH]; simpl; [reflexivity|].
  destruct (String.eqb k' k0) eqn:Hk'.
  - apply String.eqb_eq in Hk'. subst k0.
    apply String.eqb_neq in Hne. now rewrite Hne.
  - simpl. now rewrite IH.
Qed.

(** X8. With a connection, for a project that has no [model_dump] but a
    [dict] accessor, and a [created_at] that is a datetime or [None],
    [get_project_details] returns the JSON encoding of that dictionary
    with [created_at] set to the ISO string (or null) and [updated_at]
    removed, whatever the accessor put under these keys; the other
    keys are untouched. *)
Theorem project_details_plain_dict
    env client project_id project project_dict created_at s tr :
  ls env = Some client ->
  projects_get client [("id", VInt project_id)] = Returned project ->
  obj_model_dump project = None ->
  obj_dict project = Some (Returned project_dict) ->
  getattr project "created_at" = Returned created_at ->
  created_at = VNone \/ (exists iso, created_at = VDatetime iso) ->
  let readded :=
    match created_at with
    | VDatetime iso => VStr iso
    | _ => VNone
    end in
  let answer := dict_pop "updated_at" (dict_set "created_at" readded project_dict) in
  json_dumps (VDict answer) = Returned s ->
  get_label_studio_project_details_tool env project_id tr
  = (Returned (VStr s),
     (tr ++ [RemoteCall "projects.get" [("id", VInt project_id)]])%list)
  /\ dict_get "updated_at" answer = None
  /\ dict_get "created_at" answer = Some readded
  /\ (forall k, k <> "created_at" -> k <> "updated_at" ->
                dict_get k answer = dict_get k project_dict).
Proof.
  intros Hls Hget Hmd Hdict Hattr Hkind readded answer Hjson.
  assert (Hiso : Func.created_at_iso project = Returned readded).
  { unfold Func.created_at_iso. rewrite Hattr.
    now destruct Hkind as [-> | [iso ->]]. }
  repeat split.
  - unfold get_label_studio_project_details_tool.
    apply (guard_returned _ _ _ _ _ _ _ Hls).
    unfold Func.get_label_studio_project_details_tool. unfold bind at 1.
    rewrite (remote_connected _ _ _ _ _ _ _ Hls), Hget. cbv beta iota.
    rewrite Hmd, Hdict. unfold bind at 1, lift at 1. cbv beta iota.
    unfold bind at 1, lift at 1. rewrite Hiso. cbv beta iota.
    fold readded. fold answer.
    unfold Func.return_json, bind, lift, ret. now rewrite Hjson.
  - apply dict_get_pop_same.
  - unfold answer. rewrite dict_get_pop_other by discriminate.
    apply dict_get_set_same.
  - intros k Hc Hu. unfold answer.
    rewrite dict_get_pop_other by exact Hu. now apply dict_get_set_other.
Qed.

Lemma project_details_plain_dict_witness :
  get_label_studio_project_details_tool Outage.env 4 []
  = (Returned
       (VStr (Sample.text_of
                (VDict [ ("id", VInt 4); ("title", VStr "Legacy");
                         ("created_at", VStr "2023-01-15T09:00:00") ]))),
     [RemoteCall "projects.get" [("id", VInt 4)]]).
Proof.
  exact (proj1 (project_details_plain_dict Outage.env Outage.client 4
                  Outage.legacy_project _ (VDatetime "2023-01-15T09:00:00") _ []
                  eq_refl eq_refl eq_refl eq_refl eq_refl
                  (or_intror (ex_intro _ "2023-01-15T09:00:00" eq_refl))
                  eq_refl)).
Defined.

(** X9. With a connection, for a project with neither accessor and a
    JSON-serialisable [id], [get_project_details] returns the JSON
    object of just [id] and [title], the title being ['N/A'] when the
    project has none; [created_at] is not looked at. *)
Theorem project_details_minimal_fallback env client project_id project id s tr :
  ls env = Some client ->
  projects_get client [("id", VInt project_id)] = Returned project ->
  obj_model_dump project = None ->
  obj_dict project = None ->
  getattr project "id" = Returned id ->
  json_dumps
    (VDict [ ("id", id);
             ("title",
              match dict_get "title" (obj_attrs project) with
              | Some title => title
              | None => VStr "N/A"
              end) ])
  = Returned s ->
  get_label_studio_project_details_tool env project_id tr
  = (Returned (VStr s),
     (tr ++ [RemoteCall "projects.get" [("id", VInt project_id)]])%list).
Proof.
  intros Hls Hget Hmd Hdict Hid Hjson.
  unfold get_label_studio_project_details_tool.
  apply (guard_returned _ _ _ _ _ _ _ Hls).
  unfold Func.get_label_studio_project_details_tool. unfold bind at 1.
  rewrite (remote_connected _ _ _ _ _ _ _ Hls), Hget. cbv beta iota.
  rewrite Hmd, Hdict. unfold bind at 1, lift at 1. rewrite Hid. cbv beta iota.
  unfold Func.return_json, bind, lift, ret, getattr_default. now rewrite Hjson.
Qed.

Lemma project_details_minimal_fallback_witness :
  get_label_studio_project_details_tool Outage.env 3 []
  = (Returned (VStr (Sample.text_of (VDict [("id", VInt 3); ("title", VStr "N/A")]))),
     [RemoteCall "projects.get" [("id", VInt 3)]]).
Proof.
  exact (project_details_minimal_fallback Outage.env Outage.client 3
           Outage.plain_project (VInt 3) _ []
           eq_refl eq_refl eq_refl eq_refl eq_refl eq_refl).
Defined.

(** X10. With a connection, for a project with an accessor whose
    [created_at] is set (truthy) but has no [isoformat] method, such
    as a non-empty string, [get_project_details] answers with the
    guard's error string for the [AttributeError] on [isoformat]. *)
Theorem project_details_need_isoformat
    env client project_id project created_at tr :
  ls env = Some client ->
  projects_get client [("id", VInt project_id)] = Returned project ->
  (exists model_dump dump,
      obj_model_dump project = Some model_dump
      /\ model_dump ["created_at"; "updated_at"] = Returned dump)
  \/ (exists project_dict,
         obj_model_dump project = None
         /\ obj_dict project = Some (Returned project_dict)) ->
  getattr project "created_at" = Returned created_at ->
  truthy created_at = true ->
  isoformat_of created_at = None ->
  get_label_studio_project_details_tool env project_id tr
  = (Returned
       (VStr ("Error in function 'get_label_studio_project_details_tool': "
              ++ "[AttributeError] '" ++ type_name created_at
              ++ "' object has no attribute 'isoformat'")),
     (tr ++ [RemoteCall "projects.get" [("id", VInt project_id)]])%list).
Proof.
  intros Hls Hget Hacc Hattr Htrue Hnone.
  assert (Hiso : Func.created_at_iso project
                 = Raised (no_attribute (type_name created_at) "isoformat")).
  { unfold Func.created_at_iso, isoformat. now rewrite Hattr, Htrue, Hnone. }
  unfold get_label_studio_project_details_tool.
  erewrite (guard_raised _ _ _ _ _
              (no_attribute (type_name created_at) "isoformat") _ Hls);
    [reflexivity|].
  unfold Func.get_label_studio_project_details_tool. unfold bind at 1.
  rewrite (remote_connected _ _ _ _ _ _ _ Hls), Hget. cbv beta iota.
  destruct Hacc as [[md [dump [Hmd Hdump]]] | [d [Hmd Hdict]]].
  - rewrite Hmd. unfold bind at 1, lift at 1. rewrite Hdump. cbv beta iota.
    unfold bind at 1, lift at 1. now rewrite Hiso.
  - rewrite Hmd, Hdict. unfold bind at 1, lift at 1. cbv beta iota.
    unfold bind at 1, lift at 1. now rewrite Hiso.
Qed.

Lemma project_details_need_isoformat_witness :
  get_label_studio_project_details_tool Outage.env 9 []
  = (Returned
       (VStr "Error in function 'get_label_studio_project_details_tool': [AttributeError] 'str' object has no attribute 'isoformat'"),
     [RemoteCall "projects.get" [("id", VInt 9)]]).
Proof.
  exact (project_details_need_isoformat Outage.env Outage.client 9
           Outage.texted_project (VStr "2024-05-01") []
           eq_refl eq_refl
           (or_introl (ex_intro _ _ (ex_intro _ _ (conj eq_refl eq_refl))))
           eq_refl eq_refl eq_refl).
Defined.

(** A date is no datetime but has [isoformat]: its ISO text is used. *)
Example created_at_iso_of_a_date :
  Func.created_at_iso
    (mkObject "Project"
       [("created_at", VOpaque "date" "2024-05-01" true (Some "2024-05-01"))]
       None None "Project()")
  = Returned (VStr "2024-05-01").
Proof. reflexivity. Qed.

(** A falsy object is not asked for [isoformat]. *)
Example created_at_iso_of_an_empty_set :
  Func.created_at_iso
    (mkObject "Project" [("created_at", VOpaque "set" "set()" false None)]
       None None "Project()")
  = Returned VNone.
Proof. reflexivity. Qed.

(** ** Annotations *)

(** X11. With a connection, for a task object without a
    [get_annotations] method, [get_task_annotations] answers with the
    guard's error string for the [AttributeError] the tool raises,
    which names the task id; fetching the task is the only call made. *)
Theorem annotations_need_accessor rt env client project_id task_id t tr :
  ls env = Some client ->
  tasks_get client [("id", VInt task_id)] = Returned t ->
  task_get_annotations t = None ->
  get_label_studio_task_annotations_tool rt env project_id task_id tr
  = (Returned
       (VStr ("Error in function 'get_label_studio_task_annotations_tool': "
              ++ "[AttributeError] Task object (id: " ++ str_of_int task_id
              ++ ") does not have get_annotations method.")),
     (tr ++ [RemoteCall "tasks.get" [("id", VInt task_id)]])%list).
Proof.
  intros Hls Hget Hno.
  unfold get_label_studio_task_annotations_tool.
  erewrite (guard_raised _ _ _ _ _
              (mkExn AttributeError
                 ("Task object (id: " ++ str_of_int task_id
                  ++ ") does not have get_annotations method.")) _ Hls);
    [reflexivity|].
  unfold Func.get_label_studio_task_annotations_tool. unfold bind at 1.
  rewrite (remote_connected _ _ _ _ _ _ _ Hls), Hget. cbv beta iota.
  now rewrite Hno.
Qed.

Lemma annotations_need_accessor_witness :
  run (get_label_studio_task_annotations_tool Sample.rt Sample.connected 7 2)
  = (Returned
       (VStr "Error in function 'get_label_studio_task_annotations_tool': [AttributeError] Task object (id: 2) does not have get_annotations method."),
     [RemoteCall "tasks.get" [("id", VInt 2)]]).
Proof.
  exact (annotations_need_accessor Sample.rt Sample.connected Sample.client 7 2
           Sample.blank_task [] eq_refl eq_refl eq_refl).
Defined.

Lemma serialize_annotation_spec rt anno :
  accessors_return anno ->
  exists out,
    Func.serialize_annotation rt anno = Returned out /\ serialized_as rt anno out.
Proof.
  unfold accessors_return, serialized_as, Func.serialize_annotation.
  destruct anno as [v|o].
  - intros _. destruct v; eauto.
  - destruct (obj_model_dump o) as [md|].
    + intros [d Hd]. rewrite Hd. eauto.
    + destruct (obj_dict o) as [r|]; [|eauto].
      intros [d ->]. eauto.
Qed.

Lemma annotations_loop_spec rt annotations : forall serialized_annotations,
  Forall accessors_return annotations ->
  exists outs,
    Func.annotations_loop rt annotations serialized_annotations
    = Returned (serialized_annotations ++ outs)%list
    /\ Forall2 (serialized_as rt) annotations outs.
Proof.
  induction annotations as [|anno rest IH]; intros acc Hok.
  - exists []. rewrite app_nil_r. split; [reflexivity | constructor].
  - inversion Hok as [|? ? Hanno Hrest]; subst.
    destruct (serialize_annotation_spec rt anno Hanno) as [out [Hout Has]].
    destruct (IH (acc ++ [out])%list Hrest) as [outs [Hloop Hall]].
    exists (out :: outs). simpl Func.annotations_loop. rewrite Hout, Hloop.
    rewrite <- app_assoc. split; [reflexivity | now constructor].
Qed.

(** X12. With a connection, for a task whose [get_annotations] returns
    a list of annotations whose accessors return, [get_task_annotations]
    makes two calls, fetching the task and its annotations, and builds
    one element per annotation, in order: the full dump of an object
    that has one, else its plain dict, a dict as it is, anything else
    as its text under [details]; it returns the JSON encoding of that
    list when it has one. *)
Theorem annotations_one_element_each
    rt env client project_id task_id t annotations tr :
  ls env = Some client ->
  tasks_get client [("id", VInt task_id)] = Returned t ->
  task_get_annotations t = Some (Returned annotations) ->
  Forall accessors_return annotations ->
  exists serialized_annotations,
    Forall2 (serialized_as rt) annotations serialized_annotations
    /\ snd (get_label_studio_task_annotations_tool rt env project_id task_id tr)
       = (tr ++ [ RemoteCall "tasks.get" [("id", VInt task_id)];
                  RemoteCall "task.get_annotations" [] ])%list
    /\ (forall s,
           json_dumps (VList serialized_annotations) = Returned s ->
           fst (get_label_studio_task_annotations_tool rt env project_id task_id tr)
           = Returned (VStr s)).
Proof.
  intros Hls Hget Hacc Hok.
  destruct (annotations_loop_spec rt annotations [] Hok) as [outs [Hloop Hall]].
  exists outs. split; [exact Hall|].
  assert (Hbody :
    Func.get_label_studio_task_annotations_tool rt env project_id task_id tr
    = Func.return_json (VList outs)
        (tr ++ [ RemoteCall "tasks.get" [("id", VInt task_id)];
                 RemoteCall "task.get_annotations" [] ])%list).
  { unfold Func.get_label_studio_task_annotations_tool. unfold bind at 1.
    rewrite (remote_connected _ _ _ _ _ _ _ Hls), Hget. cbv beta iota.
    rewrite Hacc. unfold bind at 1, emit at 1. cbv beta iota.
    unfold bind at 1, lift at 1. cbv beta iota.
    unfold bind at 1, lift at 1. rewrite Hloop. cbv beta iota.
    now rewrite <- app_assoc. }
  unfold get_label_studio_task_annotations_tool, require_ls_connection.
  rewrite Hls, Hbody. unfold Func.return_json, bind, lift, ret. split.
  - now destruct (json_dumps (VList outs)).
  - intros s Hs. now rewrite Hs.
Qed.

Lemma annotations_one_element_each_witness :
  exists serialized_annotations,
    Forall2 (serialized_as Sample.rt)
      [Val (VDict [("id", VInt 5); ("result", VList [])])] serialized_annotations
    /\ snd (run (get_label_studio_task_annotations_tool Sample.rt Sample.connected 7 1))
       = [ RemoteCall "tasks.get" [("id", VInt 1)];
           RemoteCall "task.get_annotations" [] ]
    /\ (forall s,
           json_dumps (VList serialized_annotations) = Returned s ->
           fst (run (get_label_studio_task_annotations_tool Sample.rt
                       Sample.connected 7 1))
           = Returned (VStr s)).
Proof.
  refine (annotations_one_element_each Sample.rt Sample.connected Sample.client 7 1
            Sample.hello_task _ [] eq_refl eq_refl eq_refl _).
  repeat constructor.
Defined.

(** ** Creating a project *)

Lemma filter_not_None_values d :
  Forall (fun kv => snd kv <> VNone) (filter_not_None d).
Proof.
  apply Forall_forall. intros [k v] Hin.
  apply filter_In in Hin as [_ Hv]. simpl in *. now destruct v.
Qed.

(** Looking a key up after the [None] filter, in a dict without
    repeated keys. *)
Lemma dict_get_filter_not_None k d :
  NoDup (dict_keys d) ->
  dict_get k (filter_not_None d)
  = match dict_get k d with
    | Some VNone => None
    | found => found
    end.
Proof.
  induction d as [|[k' v'] rest IH]; intros Hnodup; [reflexivity|].
  inversion Hnodup as [|? ? Hnotin Hrest]; subst.
  unfold filter_not_None in *. cbn [filter snd dict_get].
  destruct (String.eqb k k') eqn:Hk.
  - apply String.eqb_eq in Hk. subst k'.
    destruct v'; cbn [is_not_None dict_get]; rewrite ?String.eqb_refl; try reflexivity.
    rewrite (IH Hrest).
    assert (dict_get k rest = None) as ->; [|reflexivity].
    clear -Hnotin. induction rest as [|[k0 v0] rest IH]; [reflexivity|].
    simpl in *. destruct (String.eqb_spec k k0) as [->|Hne]; [tauto|].
    apply IH. tauto.
  - destruct (is_not_None v'); cbn [dict_get]; rewrite ?Hk; exact (IH Hrest).
Qed.

(** X13. With a connection, [create_project] makes one remote create
    call, for any arguments; none of its keyword arguments is [None];
    [title] and [label_config] are always among them, and each optional
    parameter is sent exactly when the value bound to it (the one
    passed or, if omitted, its default) is not [None]: an explicit
    [None] for a boolean option keeps it out of the call. *)
Theorem create_project_sends_what_is_set
    rt env client title label_config description expert_instruction
    show_instruction show_skip_button enable_empty_annotation
    show_annotation_history color tr :
  ls env = Some client ->
  exists kwargs,
    snd (create_label_studio_project_tool rt env title label_config description
           expert_instruction show_instruction show_skip_button
           enable_empty_annotation show_annotation_history color tr)
    = (tr ++ [RemoteCall "projects.create" kwargs])%list
    /\ Forall (fun kv => snd kv <> VNone) kwargs
    /\ dict_get "title" kwargs = Some (VStr title)
    /\ dict_get "label_config" kwargs = Some (VStr label_config)
    /\ dict_get "description" kwargs = option_map VStr (or_default None description)
    /\ dict_get "expert_instruction" kwargs
       = option_map VStr (or_default None expert_instruction)
    /\ dict_get "show_instruction" kwargs
       = option_map VBool (or_default (Some false) show_instruction)
    /\ dict_get "show_skip_button" kwargs
       = option_map VBool (or_default (Some true) show_skip_button)
    /\ dict_get "enable_empty_annotation" kwargs
       = option_map VBool (or_default (Some true) enable_empty_annotation)
    /\ dict_get "show_annotation_history" kwargs
       = option_map VBool (or_default (Some false) show_annotation_history)
    /\ dict_get "color" kwargs = option_map VStr (or_default None color).
Proof.
  intros Hls. eexists. split.
  - unfold create_label_studio_project_tool.
    rewrite (guard_trace _ _ _ _ _ Hls).
    unfold Func.create_label_studio_project_tool. cbv zeta.
    rewrite bind_quiet_trace by (intros; repeat quiet_step).
    rewrite (remote_connected _ _ _ _ _ _ _ Hls). reflexivity.
  - split; [apply filter_not_None_values|].
    assert (Hkeys : forall a b c d e f g h i : value,
               NoDup (dict_keys
                        [ ("title", a); ("label_config", b); ("description", c);
                          ("expert_instruction", d); ("show_instruction", e);
                          ("show_skip_button", f); ("enable_empty_annotation", g);
                          ("show_annotation_history", h); ("color", i) ])).
    { intros. cbn [dict_keys map fst].
      repeat (constructor; [cbn [In]; intuition discriminate|]). constructor. }
    repeat split; rewrite dict_get_filter_not_None by apply Hkeys;
      cbn [dict_get String.eqb Ascii.eqb Bool.eqb]; try reflexivity;
      match goal with
      | |- context [or_default ?dflt ?a] => now destruct (or_default dflt a)
      end.
Qed.

Lemma create_project_sends_what_is_set_witness :
  exists kwargs,
    snd (run (create_label_studio_project_tool Sample.rt Sample.connected
                "Demo" "<View/>" Omitted Omitted (Passed None) (Passed None)
                (Passed None) (Passed None) (Passed (Some "#FF0000"))))
    = [RemoteCall "projects.create" kwargs]
    /\ dict_get "show_instruction" kwargs = None
    /\ dict_get "color" kwargs = Some (VStr "#FF0000").
Proof.
  destruct (create_project_sends_what_is_set Sample.rt Sample.connected
              Sample.client "Demo" "<View/>" Omitted Omitted (Passed None)
              (Passed None) (Passed None) (Passed None) (Passed (Some "#FF0000"))
              [] eq_refl)
    as [kwargs [Htrace [_ [_ [_ [_ [_ [Hshow [_ [_ [_ Hcolor]]]]]]]]]]].
  exists kwargs. split; [exact Htrace|]. split; [exact Hshow | exact Hcolor].
Defined.

(** What the attribute-copying loop leaves under a key: for a listed
    attribute the object has, its value, or what its [isoformat]
    returns when it has one; otherwise what was there before. *)
Lemma copy_attrs_get o names : forall response_data k,
  dict_get k (Func.copy_attrs o names response_data)
  = match
      (if existsb (String.eqb k) names then dict_get k (obj_attrs o) else None)
    with
    | Some value =>
        Some match isoformat_of value with
             | Some iso => VStr iso
             | None => value
             end
    | None => dict_get k response_data
    end.
Proof.
  induction names as [|attr names IH]; intros d k; [reflexivity|].
  change (Func.copy_attrs o (attr :: names) d)
    with (Func.copy_attrs o names
            match dict_get attr (obj_attrs o) with
            | Some value =>
                match isoformat_of value with
                | Some iso => dict_set attr (VStr iso) d
                | None => dict_set attr value d
                end
            | None => d
            end).
  rewrite IH. cbn [existsb].
  destruct (String.eqb_spec k attr) as [->|Hne]; cbn [orb].
  - destruct (existsb (String.eqb attr) names).
    + now destruct (dict_get attr (obj_attrs o)).
    + destruct (dict_get attr (obj_attrs o)) as [value|]; [|reflexivity].
      destruct (isoformat_of value); now rewrite dict_get_set_same.
  - assert (Hstep :
      dict_get k match dict_get attr (obj_attrs o) with
                 | Some value =>
                     match isoformat_of value with
                     | Some iso => dict_set attr (VStr iso) d
                     | None => dict_set attr value d
                     end
                 | None => d
                 end = dict_get k d).
    { destruct (dict_get attr (obj_attrs o)) as [value|]; [|reflexivity].
      destruct (isoformat_of value); now rewrite dict_get_set_other. }
    now rewrite Hstep.
Qed.

(** X14. With a connection, when the create call for a project with
    only the required arguments returns a project with an integer [id]
    and a [title], [create_project] builds the dictionary that starts
    with that [id], that [title] and a [project_url] made of the base
    URL and the id the platform assigned, and to which the loop adds
    the attributes [description], [color], [expert_instruction],
    [created_at], [label_config] that the project has, one that has
    [isoformat] as its ISO string.  The tool answers with the JSON
    encoding of that dictionary, or with the guard's error string when
    the encoding fails; the dictionary has no other key. *)
Theorem create_project_answer rt env client title label_config project n title' tr :
  ls env = Some client ->
  let request :=
    [ ("title", VStr title); ("label_config", VStr label_config);
      ("show_instruction", VBool false); ("show_skip_button", VBool true);
      ("enable_empty_annotation", VBool true);
      ("show_annotation_history", VBool false) ] in
  projects_create client request = Returned project ->
  getattr project "id" = Returned (VInt n) ->
  getattr project "title" = Returned title' ->
  let project_url :=
    LABEL_STUDIO_URL env ++ "/projects/" ++ str_of_int n ++ "/data" in
  let response_data :=
    Func.copy_attrs project
      ["description"; "color"; "expert_instruction"; "created_at"; "label_config"]
      [ ("id", VInt n); ("title", title'); ("project_url", VStr project_url) ] in
  create_label_studio_project_tool rt env title label_config
    Omitted Omitted Omitted Omitted Omitted Omitted Omitted tr
  = (match json_dumps (VDict response_data) with
     | Returned s => Returned (VStr s)
     | Raised e =>
         Returned
           (VStr ("Error in function 'create_label_studio_project_tool': ["
                  ++ class_name (exn_cls e) ++ "] " ++ exn_msg e))
     end,
     (tr ++ [RemoteCall "projects.create" request])%list)
  /\ dict_get "id" response_data = Some (VInt n)
  /\ dict_get "title" response_data = Some title'
  /\ dict_get "project_url" response_data = Some (VStr project_url)
  /\ (forall attr value,
         In attr ["description"; "color"; "expert_instruction"; "created_at";
                  "label_config"] ->
         getattr project attr = Returned value ->
         dict_get attr response_data
         = Some match isoformat_of value with
                | Some iso => VStr iso
                | None => value
                end)
  /\ (forall k,
         dict_get k response_data <> None ->
         In k [ "id"; "title"; "project_url"; "description"; "color";
                "expert_instruction"; "created_at"; "label_config" ]).
Proof.
  intros Hls request Hcreate Hid Htitle project_url response_data.
  split; [|repeat split].
  - unfold create_label_studio_project_tool, require_ls_connection. rewrite Hls.
    unfold Func.create_label_studio_project_tool. cbv zeta. unfold bind at 1.
    rewrite (remote_connected _ _ _ _ _ _ _ Hls).
    change (filter_not_None _) with request.
    rewrite Hcreate. cbv beta iota.
    unfold bind at 1, lift at 1. rewrite Hid. cbv beta iota.
    unfold bind at 1, lift at 1. rewrite Htitle. cbv beta iota.
    cbn [py_str]. fold project_url. fold response_data.
    unfold Func.return_json, bind, lift, ret.
    now destruct (json_dumps (VDict response_data)).
  - unfold response_data. now rewrite copy_attrs_get.
  - unfold response_data. now rewrite copy_attrs_get.
  - unfold response_data. now rewrite copy_attrs_get.
  - intros attr value Hin Hattr. unfold response_data. rewrite copy_attrs_get.
    assert (existsb (String.eqb attr)
              ["description"; "color"; "expert_instruction"; "created_at";
               "label_config"] = true) as ->
      by (apply existsb_exists; exists attr; split;
          [exact Hin | apply String.eqb_refl]).
    unfold getattr in Hattr.
    destruct (dict_get attr (obj_attrs project)); [|discriminate].
    now injection Hattr as ->.
  - intros k. unfold response_data. rewrite copy_attrs_get.
    destruct (existsb (String.eqb k) _) eqn:Hin.
    + intros _. apply existsb_exists in Hin as [attr [Hin Heq]].
      apply String.eqb_eq in Heq. subst attr. cbn [In] in *. intuition.
    + cbn [dict_get].
      destruct (String.eqb_spec k "id") as [->|_]; [cbn [In]; intuition|].
      destruct (String.eqb_spec k "title") as [->|_]; [cbn [In]; intuition|].
      destruct (String.eqb_spec k "project_url") as [->|_]; [cbn [In]; intuition|].
      intros Hnone. now destruct Hnone.
Qed.

Lemma create_project_answer_witness :
  run (create_label_studio_project_tool Sample.rt Sample.connected
         "Demo" "<View/>" Omitted Omitted Omitted Omitted Omitted Omitted Omitted)
  = (Returned
       (VStr (Sample.text_of
                (VDict [ ("id", VInt 7); ("title", VStr "Demo");
                         ("project_url",
                          VStr "http://localhost:8080/projects/7/data");
                         ("created_at", VStr "2024-05-01T12:00:00");
                         ("label_config", VStr "<View/>") ]))),
     [RemoteCall "projects.create"
        [ ("title", VStr "Demo"); ("label_config", VStr "<View/>");
          ("show_instruction", VBool false); ("show_skip_button", VBool true);
          ("enable_empty_annotation", VBool true);
          ("show_annotation_history", VBool false) ]]).
Proof.
  exact (proj1 (create_project_answer Sample.rt Sample.connected Sample.client
                  "Demo" "<View/>" Sample.demo_project 7 (VStr "Demo") []
                  eq_refl eq_refl eq_refl eq_refl)).
Defined.

(** ** Tools that report failures themselves *)

(** X15. With a connection, [update_project_config] reports a failure
    itself instead of leaving it to the guard: when the update call
    raises, or returns a project without an [id], the tool answers
    with its own message, which carries the error's type name, its
    text and the traceback, after the one call it made. *)
Theorem update_project_config_reports_failure
    rt env client project_id new_label_config tr :
  ls env = Some client ->
  let request :=
    [("id", VInt project_id); ("label_config", VStr new_label_config)] in
  let report e :=
    VStr ("Error during Label Studio project config update API call: "
          ++ class_name (exn_cls e) ++ " - " ++ exn_msg e
          ++ newline ++ format_exc rt e) in
  (forall e,
      projects_update client request = Raised e ->
      update_label_studio_project_config_tool rt env project_id new_label_config tr
      = (Returned (report e), (tr ++ [RemoteCall "projects.update" request])%list))
  /\ (forall updated_project,
         projects_update client request = Returned updated_project ->
         hasattr updated_project "id" = false ->
         update_label_studio_project_config_tool rt env project_id new_label_config tr
         = (Returned (report (no_attribute (obj_class updated_project) "id")),
            (tr ++ [RemoteCall "projects.update" request])%list)).
Proof.
  intros Hls request report. split.
  - intros e Hupdate.
    unfold update_label_studio_project_config_tool.
    apply (guard_returned _ _ _ _ _ _ _ Hls).
    unfold Func.update_label_studio_project_config_tool, try_except.
    unfold bind at 1. rewrite (remote_connected _ _ _ _ _ _ _ Hls).
    fold request. now rewrite Hupdate.
  - intros updated_project Hupdate Hno.
    unfold update_label_studio_project_config_tool.
    apply (guard_returned _ _ _ _ _ _ _ Hls).
    unfold Func.update_label_studio_project_config_tool, try_except.
    unfold bind at 1. rewrite (remote_connected _ _ _ _ _ _ _ Hls).
    fold request. rewrite Hupdate. cbv beta iota.
    unfold bind at 1, lift at 1. unfold getattr. unfold hasattr in Hno.
    now destruct (dict_get "id" (obj_attrs updated_project)).
Qed.

Lemma update_project_config_reports_failure_witness :
  run (update_label_studio_project_config_tool Sample.rt Outage.env 7 "<View/>")
  = (Returned
       (VStr ("Error during Label Studio project config update API call: "
              ++ "ApiError - status_code: 403" ++ newline
              ++ "Traceback (most recent call last): ApiError")),
     [RemoteCall "projects.update" [("id", VInt 7); ("label_config", VStr "<View/>")]]).
Proof.
  exact (proj1 (update_project_config_reports_failure Sample.rt Outage.env
                  Outage.client 7 "<View/>" [] eq_refl)
           Outage.forbidden eq_refl).
Defined.

(** X16. With a connection, [create_prediction] makes one remote create
    call, for any arguments; none of its keyword arguments is [None];
    [task] and [result] are always among them, and [model_version] and
    [score] are sent exactly when a value other than [None] is passed. *)
Theorem create_prediction_sends_what_is_set
    rt env client task_id result model_version score tr :
  ls env = Some client ->
  exists kwargs,
    snd (create_label_studio_prediction_tool rt env task_id result model_version
           score tr)
    = (tr ++ [RemoteCall "predictions.create" kwargs])%list
    /\ Forall (fun kv => snd kv <> VNone) kwargs
    /\ dict_get "task" kwargs = Some (VInt task_id)
    /\ dict_get "result" kwargs = Some (VList (map VDict result))
    /\ dict_get "model_version" kwargs
       = option_map VStr (or_default None model_version)
    /\ dict_get "score" kwargs = option_map VFloat (or_default None score).
Proof.
  intros Hls. eexists. split.
  - unfold create_label_studio_prediction_tool.
    rewrite (guard_trace _ _ _ _ _ Hls).
    unfold Func.create_label_studio_prediction_tool. cbv zeta.
    rewrite try_except_quiet_trace by (intros; apply quiet_ret).
    rewrite bind_quiet_trace by (intros; repeat quiet_step).
    rewrite (remote_connected _ _ _ _ _ _ _ Hls). reflexivity.
  - split; [apply filter_not_None_values|].
    assert (Hkeys : forall a b c d : value,
               NoDup (dict_keys [ ("task", a); ("result", b);
                                  ("model_version", c); ("score", d) ])).
    { intros. cbn [dict_keys map fst].
      repeat (constructor; [cbn [In]; intuition discriminate|]). constructor. }
    repeat split; rewrite dict_get_filter_not_None by apply Hkeys;
      cbn [dict_get String.eqb Ascii.eqb Bool.eqb]; try reflexivity;
      match goal with
      | |- context [or_default ?dflt ?a] => now destruct (or_default dflt a)
      end.
Qed.

Lemma create_prediction_sends_what_is_set_witness :
  exists kwargs,
    snd (run (create_label_studio_prediction_tool Sample.rt Sample.connected 1 []
                (Passed (Some "v2")) (Passed None)))
    = [RemoteCall "predictions.create" kwargs]
    /\ dict_get "model_version" kwargs = Some (VStr "v2")
    /\ dict_get "score" kwargs = None.
Proof.
  destruct (create_prediction_sends_what_is_set Sample.rt Sample.connected
              Sample.client 1 [] (Passed (Some "v2")) (Passed None) [] eq_refl)
    as [kwargs [Htrace [_ [_ [_ [Hversion Hscore]]]]]].
  exists kwargs. split; [exact Htrace|]. split; [exact Hversion | exact Hscore].
Defined.

(** What the whitelist loop leaves under a key: for a listed attribute
    the object has, its value, a datetime as its ISO string, unless the
    value is of no basic type; otherwise what was there before. *)
Lemma copy_basic_attrs_get o names : forall response_data k,
  dict_get k (Func.copy_basic_attrs o names response_data)
  = match
      (if existsb (String.eqb k) names then dict_get k (obj_attrs o) else None)
    with
    | Some (VDatetime iso) => Some (VStr iso)
    | Some (VOpaque _ _ _ _) => dict_get k response_data
    | Some v => Some v
    | None => dict_get k response_data
    end.
Proof.
  induction names as [|attr names IH]; intros d k; [reflexivity|].
  change (Func.copy_basic_attrs o (attr :: names) d)
    with (Func.copy_basic_attrs o names
            match dict_get attr (obj_attrs o) with
            | Some (VDatetime iso) => dict_set attr (VStr iso) d
            | Some (VOpaque _ _ _ _) => d
            | Some v => dict_set attr v d
            | None => d
            end).
  rewrite IH. cbn [existsb].
  destruct (String.eqb_spec k attr) as [->|Hne]; cbn [orb].
  - destruct (existsb (String.eqb attr) names).
    + destruct (dict_get attr (obj_attrs o)) as [[]|];
        rewrite ?dict_get_set_same; reflexivity.
    + destruct (dict_get attr (obj_attrs o)) as [[]|];
        rewrite ?dict_get_set_same; reflexivity.
  - assert (Hstep :
      dict_get k match dict_get attr (obj_attrs o) with
                 | Some (VDatetime iso) => dict_set attr (VStr iso) d
                 | Some (VOpaque _ _ _ _) => d
                 | Some v => dict_set attr v d
                 | None => d
                 end = dict_get k d).
    { destruct (dict_get attr (obj_attrs o)) as [[]|];
        rewrite ?dict_get_set_other by exact Hne; reflexivity. }
    now rewrite Hstep.
Qed.

(** X17. With a connection, when the create call of [create_prediction]
    (optional arguments left out) returns a prediction, the tool builds
    the dictionary that starts with the success [message] and to which
    the whitelist loop adds the attributes [id], [task],
    [model_version], [score], [result], [created_at], [updated_at]
    that the prediction has: a datetime as its ISO string, a value of
    no basic type left out.  The tool answers with the JSON encoding
    of that dictionary, or, when the encoding fails, with its own
    failure message; the dictionary has no other key. *)
Theorem create_prediction_answer rt env client task_id result created_prediction tr :
  ls env = Some client ->
  let request := [("task", VInt task_id); ("result", VList (map VDict result))] in
  predictions_create client request = Returned created_prediction ->
  let whitelist :=
    ["id"; "task"; "model_version"; "score"; "result"; "created_at"; "updated_at"] in
  let response_data :=
    Func.copy_basic_attrs created_prediction whitelist
      [("message", VStr "Prediction created successfully.")] in
  create_label_studio_prediction_tool rt env task_id result Omitted Omitted tr
  = (match json_dumps (VDict response_data) with
     | Returned s => Returned (VStr s)
     | Raised e =>
         Returned
           (VStr ("Error during Label Studio prediction create/serialize: "
                  ++ class_name (exn_cls e) ++ " - " ++ exn_msg e
                  ++ newline ++ format_exc rt e))
     end,
     (tr ++ [RemoteCall "predictions.create" request])%list)
  /\ dict_get "message" response_data
     = Some (VStr "Prediction created successfully.")
  /\ (forall k, dict_get k response_data <> None -> k = "message" \/ In k whitelist)
  /\ (forall k iso,
         In k whitelist ->
         dict_get k (obj_attrs created_prediction) = Some (VDatetime iso) ->
         dict_get k response_data = Some (VStr iso))
  /\ (forall k cls text truth iso,
         In k whitelist ->
         dict_get k (obj_attrs created_prediction)
         = Some (VOpaque cls text truth iso) ->
         dict_get k response_data = None)
  /\ (forall k v,
         In k whitelist ->
         dict_get k (obj_attrs created_prediction) = Some v ->
         json_serializable v = true ->
         dict_get k response_data = Some v).
Proof.
  intros Hls request Hcreate whitelist response_data.
  assert (Hin : forall k,
             In k whitelist -> existsb (String.eqb k) whitelist = true).
  { intros k Hk. apply existsb_exists. exists k.
    split; [exact Hk | apply String.eqb_refl]. }
  split; [|repeat split].
  - unfold create_label_studio_prediction_tool, require_ls_connection. rewrite Hls.
    unfold Func.create_label_studio_prediction_tool. cbv zeta.
    unfold try_except. unfold bind at 1.
    rewrite (remote_connected _ _ _ _ _ _ _ Hls).
    change (filter_not_None _) with request.
    rewrite Hcreate. cbv beta iota. fold whitelist. fold response_data.
    unfold Func.return_json, bind, lift, ret.
    now destruct (json_dumps (VDict response_data)).
  - unfold response_data. now rewrite copy_basic_attrs_get.
  - intros k. unfold response_data. rewrite copy_basic_attrs_get.
    destruct (existsb (String.eqb k) whitelist) eqn:Hk.
    + intros _. right. apply existsb_exists in Hk as [attr [Hattr Heq]].
      apply String.eqb_eq in Heq. now subst attr.
    + cbn [dict_get]. destruct (String.eqb_spec k "message") as [->|_]; [now left|].
      intros Hnone. now destruct Hnone.
  - intros k iso Hk Hattr. unfold response_data.
    now rewrite copy_basic_attrs_get, (Hin k Hk), Hattr.
  - intros k cls text truth iso Hk Hattr. unfold response_data.
    rewrite copy_basic_attrs_get, (Hin k Hk), Hattr.
    cbn [dict_get]. destruct (String.eqb_spec k "message") as [->|_]; [|reflexivity].
    cbn [In whitelist] in Hk. intuition discriminate.
  - intros k v Hk Hattr Hok. unfold response_data.
    rewrite copy_basic_attrs_get, (Hin k Hk), Hattr.
    destruct v; try reflexivity; discriminate.
Qed.

Lemma create_prediction_answer_witness :
  run (create_label_studio_prediction_tool Sample.rt Sample.connected 1 []
         Omitted Omitted)
  = (Returned
       (VStr (Sample.text_of
                (VDict [ ("message", VStr "Prediction created successfully.");
                         ("id", VInt 11); ("task", VInt 1) ]))),
     [RemoteCall "predictions.create" [("task", VInt 1); ("result", VList [])]]).
Proof.
  exact (proj1 (create_prediction_answer Sample.rt Sample.connected Sample.client
                  1 [] _ [] eq_refl eq_refl)).
Defined.

(** ** Importing tasks: the remaining failures *)

(** X18. With a connection, whatever exception opening or parsing the
    tasks file raises, [import_project_tasks] answers with a message
    and makes no remote call.  Beyond the cases with a clause of their
    own, a [ValueError] (a decoding failure is one) gives the
    processing message with the error's text, and any other error the
    "unexpected error" message with the path, the error's type name,
    its text and the traceback. *)
Theorem import_stops_on_any_read_failure rt env client project_id path e tr :
  ls env = Some client ->
  open_file rt path = Raised e
  \/ (exists text, open_file rt path = Returned text /\ json_load rt text = Raised e) ->
  exists message,
    import_label_studio_project_tasks_tool rt env project_id path tr
    = (Returned (VStr message), (tr ++ [FileOpen path])%list)
    /\ (exn_cls e = ValueError \/ exn_cls e = UnicodeDecodeError ->
        message = "Error processing tasks file: " ++ exn_msg e)
    /\ (exn_cls e = OSError \/ exn_cls e = TypeError \/ exn_cls e = AttributeError
        \/ (exists name, exn_cls e = UserError name) ->
        message
        = "Unexpected error reading/processing tasks file '" ++ path ++ "': "
          ++ class_name (exn_cls e) ++ " - " ++ exn_msg e
          ++ newline ++ format_exc rt e).
Proof.
  intros Hls Hfail.
  exists (Func.tasks_file_error rt path e). split; [|split].
  - unfold import_label_studio_project_tasks_tool.
    apply (guard_returned _ _ _ _ _ _ _ Hls).
    apply import_stops_on_file_error.
    destruct Hfail as [Hopen | [text [Hopen Hload]]].
    + now apply read_tasks_file_unopened.
    + now apply read_tasks_file_unparsed with (text := text).
  - unfold Func.tasks_file_error, isinstance_exn.
    now intros [-> | ->].
  - unfold Func.tasks_file_error, isinstance_exn.
    now intros [-> | [-> | [-> | [name ->]]]].
Qed.

Lemma import_stops_on_any_read_failure_witness :
  (exists message,
      run (import_label_studio_project_tasks_tool Outage.rt Sample.connected 7 "inbox")
      = (Returned (VStr message), [FileOpen "inbox"])
      /\ message
         = "Unexpected error reading/processing tasks file 'inbox': "
           ++ "OSError - [Errno 21] Is a directory: 'inbox'" ++ newline
           ++ "Traceback (most recent call last): OSError")
  /\ (exists message,
         run (import_label_studio_project_tasks_tool Outage.rt Sample.connected 7
                "latin.json")
         = (Returned (VStr message), [FileOpen "latin.json"])
         /\ message
            = "Error processing tasks file: 'utf-8' codec can't decode byte 0xe9 in position 0").
Proof.
  split.
  - destruct (import_stops_on_any_read_failure Outage.rt Sample.connected
                Sample.client 7 "inbox"
                (mkExn OSError "[Errno 21] Is a directory: 'inbox'") []
                eq_refl (or_introl eq_refl))
      as [message [Htool [_ Hother]]].
    exists message. split; [exact Htool|]. apply Hother. now left.
  - destruct (import_stops_on_any_read_failure Outage.rt Sample.connected
                Sample.client 7 "latin.json"
                (mkExn UnicodeDecodeError
                   "'utf-8' codec can't decode byte 0xe9 in position 0") []
                eq_refl
                (or_intror (ex_intro _ "latin" (conj eq_refl eq_refl))))
      as [message [Htool [Hvalue _]]].
    exists message. split; [exact Htool|]. apply Hvalue. now right.
Defined.

(** The import tool once the file has parsed to a list: the import call
    is made, and its outcome decides the answer. *)
Lemma import_after_parse rt env client project_id path text items tr :
  ls env = Some client ->
  open_file rt path = Returned text ->
  json_load rt text = Returned (VList items) ->
  let request := [("id", VInt project_id); ("request", VList items)] in
  let project_url :=
    LABEL_STUDIO_URL env ++ "/projects/" ++ str_of_int project_id ++ "/data" in
  Func.import_label_studio_project_tasks_tool rt env project_id path tr
  = (match projects_import_tasks client request with
     | Returned import_result =>
         match Func.import_response rt import_result with
         | Returned response =>
             match json_dumps
                     (VDict (dict_set "project_url" (VStr project_url) response))
             with
             | Returned s => Returned (VStr s)
             | Raised e => Raised e
             end
         | Raised e => Raised e
         end
     | Raised e =>
         Returned
           (VStr ("Error during Label Studio task import API call: "
                  ++ class_name (exn_cls e) ++ " - " ++ exn_msg e
                  ++ newline ++ format_exc rt e))
     end,
     (tr ++ [FileOpen path; RemoteCall "projects.import_tasks" request])%list).
Proof.
  intros Hls Hopen Hload request project_url.
  unfold Func.import_label_studio_project_tasks_tool.
  unfold bind at 1. unfold try_except at 1. unfold bind at 1.
  rewrite (read_tasks_file_parsed _ _ _ _ tr Hopen Hload).
  cbv beta iota. unfold ret at 1. cbv beta iota.
  unfold bind at 1. unfold try_except at 1. unfold bind at 1.
  rewrite (remote_connected _ _ _ _ _ _ _ Hls).
  rewrite <- app_assoc. simpl app. fold request. fold project_url.
  destruct (projects_import_tasks client request) as [import_result|e];
    [|reflexivity].
  cbv beta iota. unfold ret at 1. cbv beta iota.
  unfold bind at 1, lift at 1.
  destruct (Func.import_response rt import_result) as [response|e];
    [|reflexivity].
  cbv beta iota. unfold Func.return_json, bind, lift, ret.
  now destruct (json_dumps _).
Qed.

(** X19. With a connection, on a tasks file that parses to a list, when
    the import call raises, [import_project_tasks] answers with its own
    message for the failed call, carrying the error's type name, its
    text and the traceback, after the file access and that one call. *)
Theorem import_reports_remote_failure rt env client project_id path text items e tr :
  ls env = Some client ->
  open_file rt path = Returned text ->
  json_load rt text = Returned (VList items) ->
  projects_import_tasks client [("id", VInt project_id); ("request", VList items)]
  = Raised e ->
  import_label_studio_project_tasks_tool rt env project_id path tr
  = (Returned
       (VStr ("Error during Label Studio task import API call: "
              ++ class_name (exn_cls e) ++ " - " ++ exn_msg e
              ++ newline ++ format_exc rt e)),
     (tr ++ [ FileOpen path;
              RemoteCall "projects.import_tasks"
                [("id", VInt project_id); ("request", VList items)] ])%list).
Proof.
  intros Hls Hopen Hload Hcall.
  unfold import_label_studio_project_tasks_tool.
  apply (guard_returned _ _ _ _ _ _ _ Hls).
  rewrite (import_after_parse _ _ _ _ _ _ _ _ Hls Hopen Hload).
  now rewrite Hcall.
Qed.

Lemma import_reports_remote_failure_witness :
  run (import_label_studio_project_tasks_tool Sample.rt Outage.env 7 "tasks.json")
  = (Returned
       (VStr ("Error during Label Studio task import API call: "
              ++ "ApiError - status_code: 403" ++ newline
              ++ "Traceback (most recent call last): ApiError")),
     [ FileOpen "tasks.json";
       RemoteCall "projects.import_tasks"
         [ ("id", VInt 7);
           ("request", VList [VDict [("data", VDict [("text", VStr "hello")])]]) ] ]).
Proof.
  exact (import_reports_remote_failure Sample.rt Outage.env Outage.client 7
           "tasks.json" (Sample.text_of Sample.hello_tasks) _ Outage.forbidden []
           eq_refl eq_refl eq_refl eq_refl).
Defined.

(** X20. With a connection, on a tasks file that parses to a list, when
    the import call returns plain data that is not a dict,
    [import_project_tasks] always answers with a JSON object of three
    keys: the fixed [message], the result's text under [details], and
    [project_url]. *)
Theorem import_answer_for_plain_result
    rt env client project_id path text items v tr :
  ls env = Some client ->
  open_file rt path = Returned text ->
  json_load rt text = Returned (VList items) ->
  projects_import_tasks client [("id", VInt project_id); ("request", VList items)]
  = Returned (Val v) ->
  (forall d, v <> VDict d) ->
  exists s,
    json_dumps
      (VDict [ ("message", VStr "Import initiated");
               ("details", VStr (py_str rt v));
               ("project_url",
                VStr (LABEL_STUDIO_URL env ++ "/projects/"
                      ++ str_of_int project_id ++ "/data")) ])
    = Returned s
    /\ import_label_studio_project_tasks_tool rt env project_id path tr
       = (Returned (VStr s),
          (tr ++ [ FileOpen path;
                   RemoteCall "projects.import_tasks"
                     [("id", VInt project_id); ("request", VList items)] ])%list).
Proof.
  intros Hls Hopen Hload Hcall Hplain.
  match goal with
  | |- exists s, json_dumps ?payload = _ /\ _ =>
      destruct (json_dumps_total payload eq_refl) as [s Hs]
  end.
  exists s. split; [exact Hs|].
  unfold import_label_studio_project_tasks_tool.
  apply (guard_returned _ _ _ _ _ _ _ Hls).
  rewrite (import_after_parse _ _ _ _ _ _ _ _ Hls Hopen Hload), Hcall.
  assert (Hresp : Func.import_response rt (Val v)
                  = Returned [ ("message", VStr "Import initiated");
                               ("details", VStr (py_str rt v)) ]).
  { unfold Func.import_response. destruct v; try reflexivity.
    now destruct (Hplain entries). }
  rewrite Hresp.
  change (dict_set "project_url" ?u
            [ ("message", VStr "Import initiated"); ("details", VStr (py_str rt v)) ])
    with [ ("message", VStr "Import initiated"); ("details", VStr (py_str rt v));
           ("project_url", u) ].
  now rewrite Hs.
Qed.

Lemma import_answer_for_plain_result_witness :
  exists s,
    json_dumps
      (VDict [ ("message", VStr "Import initiated");
               ("details", VStr "None");
               ("project_url", VStr "http://localhost:8080/projects/7/data") ])
    = Returned s
    /\ run (import_label_studio_project_tasks_tool Sample.rt Outage.terse 7
              "tasks.json")
       = (Returned (VStr s),
          [ FileOpen "tasks.json";
            RemoteCall "projects.import_tasks"
              [ ("id", VInt 7);
                ("request",
                 VList [VDict [("data", VDict [("text", VStr "hello")])]]) ] ]).
Proof.
  refine (import_answer_for_plain_result Sample.rt Outage.terse Outage.terse_client
            7 "tasks.json" (Sample.text_of Sample.hello_tasks) _ VNone []
            eq_refl eq_refl eq_refl eq_refl _).
  intros d; discriminate.
Defined.

(** ** The datetime serializer *)

(** X21. [json_datetime_serializer] returns exactly on datetimes, with
    what [isoformat] gives; on any other value it raises a [TypeError]
    whose message names the value's type. *)
Theorem json_datetime_serializer_accepts_datetimes_only (obj : value) :
  ((exists out, json_datetime_serializer obj = Returned out)
   <-> (exists iso, obj = VDatetime iso))
  /\ (forall out, json_datetime_serializer obj = Returned out ->
                  isoformat obj = Returned out)
  /\ (forall e,
         json_datetime_serializer obj = Raised e ->
         e = mkExn TypeError
               ("Object of type " ++ type_name obj ++ " is not JSON serializable")).
Proof.
  split; [|split].
  - split.
    + intros [out Hout]. destruct obj; try discriminate. eauto.
    + intros [iso ->]. simpl. eauto.
  - intros out Hout. now destruct obj.
  - intros e He. destruct obj; try discriminate; now injection He as <-.
Qed.

(** ** Updating a project's configuration *)

(** X22. With a connection, when the update call returns a project with
    an integer [id], [update_project_config] builds the dictionary that
    starts with that [id], the project's [title] (or ['N/A']), its
    [label_config] (or the configuration that was sent, when the
    returned project carries none), a [project_url] made of the base
    URL and the returned id, and the success [message], and to which
    the loop adds the attributes [description], [color],
    [expert_instruction], [created_at] that the project has, one that
    has [isoformat] as its ISO string.  The tool answers with the JSON
    encoding of that dictionary, or, when the encoding fails, with its
    own failure message. *)
Theorem update_project_config_answer
    rt env client project_id new_label_config updated_project n tr :
  ls env = Some client ->
  let request :=
    [("id", VInt project_id); ("label_config", VStr new_label_config)] in
  projects_update client request = Returned updated_project ->
  getattr updated_project "id" = Returned (VInt n) ->
  let title :=
    match dict_get "title" (obj_attrs updated_project) with
    | Some title => title
    | None => VStr "N/A"
    end in
  let label_config :=
    match dict_get "label_config" (obj_attrs updated_project) with
    | Some label_config => label_config
    | None => VStr new_label_config
    end in
  let project_url :=
    LABEL_STUDIO_URL env ++ "/projects/" ++ str_of_int n ++ "/data" in
  let response_data :=
    Func.copy_attrs updated_project
      ["description"; "color"; "expert_instruction"; "created_at"]
      [ ("id", VInt n); ("title", title); ("label_config", label_config);
        ("project_url", VStr project_url);
        ("message", VStr "Project configuration updated successfully.") ] in
  update_label_studio_project_config_tool rt env project_id new_label_config tr
  = (match json_dumps (VDict response_data) with
     | Returned s => Returned (VStr s)
     | Raised e =>
         Returned
           (VStr ("Error during Label Studio project config update API call: "
                  ++ class_name (exn_cls e) ++ " - " ++ exn_msg e
                  ++ newline ++ format_exc rt e))
     end,
     (tr ++ [RemoteCall "projects.update" request])%list)
  /\ dict_get "id" response_data = Some (VInt n)
  /\ dict_get "title" response_data = Some title
  /\ dict_get "label_config" response_data = Some label_config
  /\ dict_get "project_url" response_data = Some (VStr project_url)
  /\ dict_get "message" response_data
     = Some (VStr "Project configuration updated successfully.")
  /\ (forall attr value,
         In attr ["description"; "color"; "expert_instruction"; "created_at"] ->
         getattr updated_project attr = Returned value ->
         dict_get attr response_data
         = Some match isoformat_of value with
                | Some iso => VStr iso
                | None => value
                end)
  /\ (forall k,
         dict_get k response_data <> None ->
         In k [ "id"; "title"; "label_config"; "project_url"; "message";
                "description"; "color"; "expert_instruction"; "created_at" ]).
Proof.
  intros Hls request Hupdate Hid title label_config project_url response_data.
  split; [|repeat split].
  - unfold update_label_studio_project_config_tool, require_ls_connection.
    rewrite Hls.
    unfold Func.update_label_studio_project_config_tool, try_except.
    unfold bind at 1. rewrite (remote_connected _ _ _ _ _ _ _ Hls).
    fold request. rewrite Hupdate.
    cbv beta iota. unfold bind at 1, lift at 1. rewrite Hid. cbv beta iota zeta.
    cbn [py_str]. unfold getattr_default.
    fold title. fold label_config. fold project_url. fold response_data.
    unfold Func.return_json, bind, lift, ret.
    now destruct (json_dumps (VDict response_data)).
  - unfold response_data. now rewrite copy_attrs_get.
  - unfold response_data. now rewrite copy_attrs_get.
  - unfold response_data. now rewrite copy_attrs_get.
  - unfold response_data. now rewrite copy_attrs_get.
  - unfold response_data. now rewrite copy_attrs_get.
  - intros attr value Hin Hattr. unfold response_data. rewrite copy_attrs_get.
    assert (existsb (String.eqb attr)
              ["description"; "color"; "expert_instruction"; "created_at"] = true)
      as ->
      by (apply existsb_exists; exists attr; split;
          [exact Hin | apply String.eqb_refl]).
    unfold getattr in Hattr.
    destruct (dict_get attr (obj_attrs updated_project)); [|discriminate].
    now injection Hattr as ->.
  - intros k. unfold response_data. rewrite copy_attrs_get.
    destruct (existsb (String.eqb k) _) eqn:Hin.
    + intros _. apply existsb_exists in Hin as [attr [Hin Heq]].
      apply String.eqb_eq in Heq. subst attr. cbn [In] in *. intuition.
    + cbn [dict_get].
      destruct (String.eqb_spec k "id") as [->|_]; [cbn [In]; intuition|].
      destruct (String.eqb_spec k "title") as [->|_]; [cbn [In]; intuition|].
      destruct (String.eqb_spec k "label_config") as [->|_]; [cbn [In]; intuition|].
      destruct (String.eqb_spec k "project_url") as [->|_]; [cbn [In]; intuition|].
      destruct (String.eqb_spec k "message") as [->|_]; [cbn [In]; intuition|].
      intros Hnone. now destruct Hnone.
Qed.

Lemma update_project_config_answer_witness :
  run (update_label_studio_project_config_tool Sample.rt Sample.connected 8
         "<View></View>")
  = (Returned
       (VStr (Sample.text_of
                (VDict [ ("id", VInt 7); ("title", VStr "Demo");
                         ("label_config", VStr "<View/>");
                         ("project_url",
                          VStr "http://localhost:8080/projects/7/data");
                         ("message",
                          VStr "Project configuration updated successfully.");
                         ("created_at", VStr "2024-05-01T12:00:00") ]))),
     [RemoteCall "projects.update"
        [("id", VInt 8); ("label_config", VStr "<View></View>")]]).
Proof.
  exact (proj1 (update_project_config_answer Sample.rt Sample.connected
                  Sample.client 8 "<View></View>" Sample.demo_project 7 []
                  eq_refl eq_refl eq_refl)).
Defined.
